(** * Validation utilities of the wallet front end

    A shallow embedding of the validation module (address validation,
    transaction-fee classification, JSON-RPC response validation) and the
    properties its specification states about it.

    Strings are [String.string]; a regular-expression literal of the source
    is embedded as a term of [Regex.regex] and run by a derivative matcher
    that is proved equivalent to the usual inductive semantics.  A call
    that may raise returns an [outcome].  Functions of other packages
    ([toChecksumAddress], [bigNumberify], ...), the helpers of the [@utils]
    and [@config] modules and what the runtime knows of numbers and of
    characters are the fields of classes. *)

From Stdlib Require Import Strings.String Strings.Ascii Lists.List.
From Stdlib Require Import ZArith Bool Lia DecimalString.
Import ListNotations.

Local Open Scope string_scope.

(** ** Regular expressions *)

Module Regex.

Inductive regex : Type :=
| Void : regex
| Eps : regex
| Class : (ascii -> bool) -> regex
| Seq : regex -> regex -> regex
| Alt : regex -> regex -> regex
| Star : regex -> regex.

(** [r{n}] *)
Fixpoint Repeat (n : nat) (r : regex) : regex :=
  match n with
  | O => Eps
  | S k => Seq r (Repeat k r)
  end.

(** [r+] and [r?] *)
Definition Plus (r : regex) : regex := Seq r (Star r).
Definition Opt (r : regex) : regex := Alt r Eps.

(** A literal character, and the character ranges used by the source. *)
Definition Chr (c : ascii) : regex := Class (Ascii.eqb c).

Definition in_range (lo hi c : ascii) : bool :=
  (nat_of_ascii lo <=? nat_of_ascii c)%nat && (nat_of_ascii c <=? nat_of_ascii hi)%nat.

Definition digit (c : ascii) : bool := in_range "0" "9" c.
Definition lower_hex (c : ascii) : bool := in_range "a" "f" c || digit c.
Definition upper_hex (c : ascii) : bool := in_range "A" "F" c || digit c.
Definition mixed_hex (c : ascii) : bool :=
  in_range "a" "f" c || in_range "A" "F" c || digit c.

(** Denotation: the words of a regular expression. *)
Inductive Matches : regex -> list ascii -> Prop :=
| MEps : Matches Eps []
| MClass : forall p c, p c = true -> Matches (Class p) [c]
| MSeq : forall r1 r2 w1 w2,
    Matches r1 w1 -> Matches r2 w2 -> Matches (Seq r1 r2) (w1 ++ w2)
| MAltL : forall r1 r2 w, Matches r1 w -> Matches (Alt r1 r2) w
| MAltR : forall r1 r2 w, Matches r2 w -> Matches (Alt r1 r2) w
| MStarNil : forall r, Matches (Star r) []
| MStarCons : forall r w1 w2,
    Matches r w1 -> Matches (Star r) w2 -> Matches (Star r) (w1 ++ w2).

Fixpoint nullable (r : regex) : bool :=
  match r with
  | Void => false
  | Eps => true
  | Class _ => false
  | Seq r1 r2 => nullable r1 && nullable r2
  | Alt r1 r2 => nullable r1 || nullable r2
  | Star _ => true
  end.

Fixpoint deriv (c : ascii) (r : regex) : regex :=
  match r with
  | Void => Void
  | Eps => Void
  | Class p => if p c then Eps else Void
  | Seq r1 r2 =>
      if nullable r1
      then Alt (Seq (deriv c r1) r2) (deriv c r2)
      else Seq (deriv c r1) r2
  | Alt r1 r2 => Alt (deriv c r1) (deriv c r2)
  | Star r1 => Seq (deriv c r1) (Star r1)
  end.

Fixpoint matches (r : regex) (w : list ascii) : bool :=
  match w with
  | [] => nullable r
  | c :: w' => matches (deriv c r) w'
  end.

(** [/^r$/.test(s)]: both anchors are present in every expression of the
    module, and [$] without the [m] flag is the end of the input. *)
Definition test (r : regex) (s : string) : bool :=
  matches r (list_ascii_of_string s).

End Regex.

(** ** Strings and arrays of the language runtime *)

(** [s.split(sep)] for a one-character separator: never empty. *)
Fixpoint split (sep : ascii) (s : string) : list string :=
  match s with
  | EmptyString => [EmptyString]
  | String c s' =>
      if Ascii.eqb c sep then EmptyString :: split sep s'
      else match split sep s' with
           | [] => [String c EmptyString]
           | h :: t => String c h :: t
           end
  end.

(** [l.join(sep)] for a one-character separator. *)
Fixpoint join (sep : ascii) (l : list string) : string :=
  match l with
  | [] => EmptyString
  | [x] => x
  | x :: rest => x ++ String sep (join sep rest)
  end.

(** [l.includes(x)] on an array of strings. *)
Definition includes (l : list string) (x : string) : bool :=
  existsb (String.eqb x) l.

(** [l[0]] and [l.pop()] where the result is used as a string. *)
Definition first (l : list string) : string := hd EmptyString l.
Definition pop (l : list string) : string := last l EmptyString.

(** [sub] occurs in [s]. *)
Definition contains (s sub : string) : Prop :=
  exists pre post, s = pre ++ sub ++ post.

(** What a call produces: a value, or a raised [Error] with its message,
    or a [TypeError] raised by the runtime. *)
Inductive outcome (A : Type) : Type :=
| Return : A -> outcome A
| ThrowError : string -> outcome A
| ThrowTypeError : outcome A.

Arguments Return {A} _.
Arguments ThrowError {A} _.
Arguments ThrowTypeError {A}.

(** Sequencing: what is raised in the first step is raised by the whole. *)
Definition bind {A B : Type} (o : outcome A) (k : A -> outcome B) : outcome B :=
  match o with
  | Return a => k a
  | ThrowError m => ThrowError m
  | ThrowTypeError => ThrowTypeError
  end.

Notation "x <- c ;; k" := (bind c (fun x => k))
  (at level 61, c at next level, right associativity).

(** [a || b] on tests that may raise: [b] is evaluated only when [a] is
    false. *)
Definition or_else (a b : outcome bool) : outcome bool :=
  x <- a ;; if x then Return true else b.

(** A string of ASCII characters. *)
Definition is_ascii_char (c : ascii) : bool := (nat_of_ascii c <? 128)%nat.

Definition is_ascii (s : string) : bool :=
  forallb is_ascii_char (list_ascii_of_string s).

(** [s.toUpperCase()] on the letters a-z. *)
Definition upper (c : ascii) : ascii :=
  if Regex.in_range "a" "z" c then ascii_of_nat (nat_of_ascii c - 32) else c.

Fixpoint upper_ascii (s : string) : string :=
  match s with
  | EmptyString => EmptyString
  | String c s' => String (upper c) (upper_ascii s')
  end.

(** What the runtime knows of the characters of a string, a string here
    being the bytes of its UTF-8 form: its upper-case form, its length in
    UTF-16 code units ([s.length]) and its number of characters, a
    surrogate pair being one.  On an ASCII string the upper-case form
    changes the letters a-z only, and both lengths are the number of
    bytes. *)
Class Unicode : Type := {
  toUpperCase : string -> string;
  utf16_length : string -> nat;
  char_length : string -> nat;
  toUpperCase_ascii :
    forall s, is_ascii s = true -> toUpperCase s = upper_ascii s;
  utf16_length_ascii :
    forall s, is_ascii s = true -> utf16_length s = String.length s;
  char_length_ascii :
    forall s, is_ascii s = true -> char_length s = String.length s
}.

(** ** Address validation *)

(** [toChecksumAddress] of ethereumjs-util and [isValidChecksumAddress] of
    rskjs-util: functions of other packages, taken as they are. *)
Class AddressLib : Type := {
  toChecksumAddress : string -> string;
  isValidChecksumRSKAddress : string -> Z -> bool
}.

Import Regex.

(** [/^(0(x|X)[a-fA-F0-9]{40})$/] *)
Definition mixedCaseRegex : regex :=
  Seq (Chr "0") (Seq (Alt (Chr "x") (Chr "X")) (Repeat 40 (Class mixed_hex))).

(** [/^(0(x|X)(([a-f0-9]{40})|([A-F0-9]{40})))$/] *)
Definition upperOrLowerCaseRegex : regex :=
  Seq (Chr "0")
      (Seq (Alt (Chr "x") (Chr "X"))
           (Alt (Repeat 40 (Class lower_hex)) (Repeat 40 (Class upper_hex)))).

Definition isValidMixedCaseETHAddress (address : string) : bool :=
  test mixedCaseRegex address.

Definition isValidUpperOrLowerCaseETHAddress (address : string) : bool :=
  test upperOrLowerCaseRegex address.

Definition isValidETHLikeAddress (address : string) (isChecksumValid : bool) : bool :=
  let isValidMixedCase := isValidMixedCaseETHAddress address in
  let isValidUpperOrLowerCase := isValidUpperOrLowerCaseETHAddress address in
  if negb (includes ["0x"; "0X"] (substring 0 2 address)) then false
  else if isValidMixedCase && negb isValidUpperOrLowerCase && negb isChecksumValid then false
  else if isValidMixedCase && negb isValidUpperOrLowerCase && isChecksumValid then true
  else if isValidUpperOrLowerCase && negb isValidMixedCase then true
  else if negb isValidUpperOrLowerCase && negb isValidMixedCase then false
  else true.

Section Address.
Context `{lib : AddressLib}.

Definition isChecksumAddress (address : string) : bool :=
  String.eqb address (toChecksumAddress address).

Definition isValidRSKAddress (address : string) (chainId : Z) : bool :=
  isValidETHLikeAddress address (isValidChecksumRSKAddress address chainId).

Definition isValidETHAddress (address : string) : bool :=
  isValidETHLikeAddress address (isChecksumAddress address).

Definition getIsValidAddressFunction (chainId : Z) : string -> bool :=
  if (chainId =? 30)%Z || (chainId =? 31)%Z
  then fun address => isValidRSKAddress address chainId
  else isValidETHAddress.

Definition isValidAddress (address : string) (chainId : Z) : bool :=
  getIsValidAddressFunction chainId address.

End Address.

(** ** Transaction-fee classification *)

Inductive TxFeeResponseType : Type :=
| Warning
| Error_Use_Lower
| Error_High_Tx_Fee
| Error_Very_High_Tx_Fee
| None_
| Invalid.

Record TxFeeResponse : Type := {
  type : TxFeeResponseType;
  amount : option string;
  fee : option string
}.

(** The [number] type of the language (IEEE doubles) with the operations
    the module applies to it; [undefined] is [None] of [option number]. *)
Class JSNumber : Type := {
  number : Type;
  (** [n.toString()] *)
  Number_toString : number -> string;
  (** [a * b] *)
  number_mul : number -> number -> number;
  (** truthiness of a number: false on [0] and [NaN] *)
  number_truthy : number -> bool;
  (** [n > 0] *)
  number_gt_zero : number -> bool;
  (** [n % 1 === 0] *)
  number_isInteger : number -> bool;
  (** the literals [0.5], [0.15] and [0.025] *)
  lit_0_5 : number;
  lit_0_15 : number;
  lit_0_025 : number;
  (** [parseFloat(s).toFixed(d).toString()] *)
  parseFloat_toFixed : string -> nat -> string
}.

(** The unit helpers of [@utils], the constant of [@config] and the
    big-number functions of ethers and bn.js; a big number is a [Z], and
    [bigNumberify] raises on a string that is no integer. *)
Class Units : Type := {
  DEFAULT_ASSET_DECIMAL : nat;
  convertedToBaseUnit : string -> nat -> string;
  baseToConvertedUnit : string -> nat -> string;
  gasStringsToMaxGasBN : string -> string -> Z;
  bigNumberify : string -> outcome Z;
  BN_toString : Z -> string
}.

(** [/^[0-9]+(\.[0-9])?[0-9]*$/] *)
Definition validInputRegex : regex :=
  Seq (Plus (Class digit))
      (Seq (Opt (Seq (Chr ".") (Class digit))) (Star (Class digit))).

(** [!s.match(validInputRegex)] *)
Definition no_match (s : string) : bool := negb (test validInputRegex s).

Section TxFee.
Context `{num : JSNumber} `{units : Units}.

Definition DEFAULT_RATE_DECIMAL : nat := 4.
Definition DEFAULT_DECIMAL : nat := DEFAULT_ASSET_DECIMAL + DEFAULT_RATE_DECIMAL.

(** Truthiness of an optional number argument. *)
Definition truthy (n : option number) : bool :=
  match n with
  | Some r => number_truthy r
  | None => false
  end.

Definition getAssetRate (assetRateUSD : number) : string :=
  convertedToBaseUnit (Number_toString assetRateUSD) DEFAULT_RATE_DECIMAL.

Definition getAssetRateLocal (assetRateFiat : number) : string :=
  convertedToBaseUnit (Number_toString assetRateFiat) DEFAULT_RATE_DECIMAL.

(** A string, or the number literal [0]. *)
Definition getEthAssetRate (assetRateUSD : number) (ethAssetRate : option number)
  : string + Z :=
  if truthy ethAssetRate
  then inl (convertedToBaseUnit (Number_toString assetRateUSD) DEFAULT_RATE_DECIMAL)
  else inr 0%Z.

(** [bigNumberify] applied to a string or to an integer literal. *)
Definition bigNumberify_value (v : string + Z) : outcome Z :=
  match v with
  | inl s => bigNumberify s
  | inr z => Return z
  end.

(** The constants of the function, in the order it computes them.  The
    later ones take the fee, already computed, as [txFee]. *)
Definition txAmount (amount : string) : outcome Z :=
  bigNumberify (convertedToBaseUnit amount DEFAULT_DECIMAL).

Definition txFee (gasLimit gasPrice : string) : outcome Z :=
  bigNumberify (BN_toString (gasStringsToMaxGasBN gasPrice gasLimit)).

Definition txFeeFiatValue (assetRateUSD : number) (txFee : Z) : outcome Z :=
  rate <- bigNumberify (getAssetRate assetRateUSD) ;;
  Return (rate * txFee)%Z.

(** [null] is [None]. *)
Definition txTransactionFeeInEthFiatValue
  (assetRateUSD : number) (ethAssetRate : option number) (txFee : Z)
  : outcome (option Z) :=
  match ethAssetRate with
  | Some r =>
      if number_truthy r && number_gt_zero r
      then rate <- bigNumberify_value (getEthAssetRate assetRateUSD ethAssetRate) ;;
           Return (Some (rate * txFee)%Z)
      else Return None
  | None => Return None
  end.

Definition createTxFeeResponse
  (assetRateFiat : number) (txAmount txFee : Z) (ty : TxFeeResponseType)
  : outcome TxFeeResponse :=
  rateAmount <- bigNumberify (getAssetRateLocal assetRateFiat) ;;
  let txAmountFiatLocalValue := (rateAmount * txAmount)%Z in
  rateFee <- bigNumberify (getAssetRateLocal assetRateFiat) ;;
  let txFeeFiatLocalValue := (rateFee * txFee)%Z in
  Return
    {| type := ty;
       amount :=
         Some (parseFloat_toFixed
                 (baseToConvertedUnit (BN_toString txAmountFiatLocalValue)
                                      (DEFAULT_DECIMAL + DEFAULT_RATE_DECIMAL)) 4);
       fee :=
         Some (parseFloat_toFixed
                 (baseToConvertedUnit (BN_toString txFeeFiatLocalValue) DEFAULT_DECIMAL)
                 4) |}.

Definition isGreaterThanEthFraction
  (ethAssetRate : option number) (txTransactionFeeInEthFiatValue : option Z)
  (ethFraction : number) : outcome bool :=
  match ethAssetRate, txTransactionFeeInEthFiatValue with
  | Some r, Some v =>
      if number_truthy r
      then bound <- bigNumberify
                      (convertedToBaseUnit (Number_toString (number_mul r ethFraction))
                                           DEFAULT_DECIMAL) ;;
           Return (v >=? bound)%Z
      else Return false
  | _, _ => Return false
  end.

(** [txFeeFiatValue.gt(bigNumberify(convertedToBaseUnit(threshold, DEFAULT_DECIMAL)))] *)
Definition exceeds (txFeeFiatValue : Z) (threshold : string) : outcome bool :=
  bound <- bigNumberify (convertedToBaseUnit threshold DEFAULT_DECIMAL) ;;
  Return (txFeeFiatValue >? bound)%Z.

Definition validateTxFee
  (amount : string) (assetRateUSD assetRateFiat : number) (isERC20 : bool)
  (gasLimit gasPrice : string) (ethAssetRate : option number)
  : outcome TxFeeResponse :=
  if no_match amount || no_match gasLimit || no_match gasPrice
  then Return {| type := Invalid; amount := None; fee := None |}
  else
    amountValue <- txAmount amount ;;
    feeValue <- txFee gasLimit gasPrice ;;
    fiatValue <- txFeeFiatValue assetRateUSD feeValue ;;
    ethFiatValue <- txTransactionFeeInEthFiatValue assetRateUSD ethAssetRate feeValue ;;
    let respond := createTxFeeResponse assetRateFiat amountValue feeValue in
    let ethFraction := isGreaterThanEthFraction ethAssetRate ethFiatValue in
    (* In case of fractions of amount being send *)
    minimum <- bigNumberify (convertedToBaseUnit "0.000001" DEFAULT_DECIMAL) ;;
    if (amountValue <? minimum)%Z then respond None_
    else
      (* More than 100$ OR 0.5 ETH *)
      veryHigh <- or_else (exceeds fiatValue "100") (ethFraction lit_0_5) ;;
      if veryHigh then respond Error_Very_High_Tx_Fee
      else
        (* More than 25$ OR 0.15 ETH *)
        high <- or_else (exceeds fiatValue "25") (ethFraction lit_0_15) ;;
        if high then respond Error_High_Tx_Fee
        else
          (* More than 5$ OR 0.025 ETH *)
          lower <- or_else (exceeds fiatValue "5") (ethFraction lit_0_025) ;;
          if lower then respond Error_Use_Lower
          else
            (* Erc token where txFee is higher than amount *)
            warning <-
              (if negb isERC20
               then bound <- bigNumberify
                               (convertedToBaseUnit (BN_toString feeValue)
                                                    DEFAULT_RATE_DECIMAL) ;;
                    Return (amountValue <? bound)%Z
               else Return false) ;;
            if warning then respond Warning else respond None_.

(** The classification of a call that returns. *)
Definition classification (o : outcome TxFeeResponse) : option TxFeeResponseType :=
  match o with
  | Return r => Some (type r)
  | _ => None
  end.

End TxFee.

(** ** JSON-RPC response validation *)

(** The types named by the schema, and the two shapes of property schema
    it uses: [{ type, maxLength? }] and [{ oneOf: [{ type }, ...] }]. *)
Inductive schema_type : Type :=
| TString
| TInteger
| TArray
| TObject.

Inductive property_schema : Type :=
| OfType : schema_type -> option nat -> property_schema
| OneOf : list schema_type -> property_schema.

Record object_schema : Type := {
  additionalProperties : bool;
  properties : list (string * property_schema)
}.

(** [schema.RpcNode] *)
Definition RpcNode : object_schema := {|
  additionalProperties := true;
  properties :=
    [ ("jsonrpc", OfType TString None);
      ("id", OneOf [TString; TInteger]);
      ("result", OneOf [TString; TArray; TObject]);
      ("status", OfType TString None);
      ("message", OfType TString (Some 2)) ]
|}.

Inductive API_NAME : Type :=
| Get_Balance
| Estimate_Gas
| Call_Request
| Token_Balance
| Transaction_Count
| Current_Block
| Raw_Tx
| Send_Transaction
| Sign_Message
| Get_Accounts
| Net_Version
| Transaction_By_Hash
| Transaction_Receipt
| Request_Permissions
| Get_Permissions.

Definition API_NAME_value (a : API_NAME) : string :=
  match a with
  | Get_Balance => "Get Balance"
  | Estimate_Gas => "Estimate Gas"
  | Call_Request => "Call Request"
  | Token_Balance => "Token Balance"
  | Transaction_Count => "Transaction Count"
  | Current_Block => "Current Block"
  | Raw_Tx => "Raw Tx"
  | Send_Transaction => "Send Transaction"
  | Sign_Message => "Sign Message"
  | Get_Accounts => "Get Accounts"
  | Net_Version => "Net Version"
  | Transaction_By_Hash => "Transaction By Hash"
  | Transaction_Receipt => "Transaction Receipt"
  | Request_Permissions => "Request_Permissions"
  | Get_Permissions => "Get_Permissions"
  end.

Section Rpc.
Context `{num : JSNumber} `{uni : Unicode}.

(** A response as it arrives: a JSON value.  An object is the list of its
    properties, the first binding of a name being the property. *)
#[warnings="-register-all"]
Inductive json : Type :=
| JNull : json
| JBool : bool -> json
| JNum : number -> json
| JStr : string -> json
| JArr : list json -> json
| JObj : list (string * json) -> json.

Fixpoint lookup (k : string) (fields : list (string * json)) : option json :=
  match fields with
  | [] => None
  | (k', v) :: rest => if String.eqb k k' then Some v else lookup k rest
  end.

(** [v.k] on a value that is not [null]: [undefined] is [None]. *)
Definition get (v : json) (k : string) : option json :=
  match v with
  | JObj fields => lookup k fields
  | _ => None
  end.

(** Truthiness of a value. *)
Definition json_truthy (v : json) : bool :=
  match v with
  | JNull => false
  | JBool b => b
  | JNum n => number_truthy n
  | JStr s => negb (String.eqb s "")
  | JArr _ => true
  | JObj _ => true
  end.

(** The string a template literal inserts for a value.  An object that
    has a property [toString] of its own cannot be turned into a string
    (the property is no function, and [valueOf] gives the object back):
    the runtime raises a [TypeError], also for such an object inside an
    array. *)
Fixpoint ToString (v : json) : outcome string :=
  match v with
  | JNull => Return "null"
  | JBool true => Return "true"
  | JBool false => Return "false"
  | JNum n => Return (Number_toString n)
  | JStr s => Return s
  | JArr l =>
      let element x := match x with JNull => Return "" | _ => ToString x end in
      (fix join (l : list json) : outcome string :=
         match l with
         | [] => Return ""
         | [x] => element x
         | x :: rest =>
             head <- element x ;;
             tail <- join rest ;;
             Return (head ++ "," ++ tail)
         end) l
  | JObj fields =>
      match lookup "toString" fields with
      | Some _ => ThrowTypeError
      | None => Return "[object Object]"
      end
  end.

(** The validator of the jsonschema package on the schemas above: a
    property that is absent is not checked. *)
Definition has_type (t : schema_type) (v : json) : bool :=
  match t, v with
  | TString, JStr _ => true
  | TInteger, JNum n => number_isInteger n
  | TArray, JArr _ => true
  | TObject, JObj _ => true
  | _, _ => false
  end.

Definition validate_property (p : property_schema) (v : json) : bool :=
  match p with
  | OfType t maxLength =>
      has_type t v
      && match maxLength, v with
         | Some n, JStr s => (char_length s <=? n)%nat
         | _, _ => true
         end
  | OneOf ts => (List.length (filter (fun t => has_type t v) ts) =? 1)%nat
  end.

Definition validate (instance : json) (s : object_schema) : bool :=
  match instance with
  | JObj fields =>
      forallb (fun kp : string * property_schema =>
                 match lookup (fst kp) fields with
                 | Some v => validate_property (snd kp) v
                 | None => true
                 end)
              (properties s)
  | _ => false
  end.

Definition isValidResult (response : json) (schemaFormat : object_schema) : bool :=
  validate response schemaFormat.

Definition formatErrors (response : json) (apiType : string) : outcome string :=
  match response with
  | JNull => ThrowTypeError
  | _ =>
      match get response "error" with
      | Some error =>
          if json_truthy error then
            match get error "message" with
            | Some (JStr message) =>
                let lines := split "010" message in
                if (2 <? List.length lines)%nat
                then Return (pop (split ":" (first lines)))
                else
                  data <- match get error "data" with
                          | Some data =>
                              if json_truthy data then ToString data else Return ""
                          | None => Return ""
                          end ;;
                  Return (message ++ " " ++ data)
            | _ => ThrowTypeError
            end
          else Return ("Invalid " ++ apiType ++ " Error")
      | None => Return ("Invalid " ++ apiType ++ " Error")
      end
  end.

Definition isValidEthServiceResponse
  (response : json) (schemaType : object_schema)
  (apiName : API_NAME) (cb : option (json -> json)) : outcome json :=
  if negb (isValidResult response schemaType) then
    match cb with
    | Some f => Return (f response)
    | None =>
        match formatErrors response (API_NAME_value apiName) with
        | Return msg => ThrowError msg
        | ThrowError msg => ThrowError msg
        | ThrowTypeError => ThrowTypeError
        end
    end
  else Return response.

Definition isValidGetBalance (response : json) : outcome json :=
  isValidEthServiceResponse response RpcNode Get_Balance None.

Definition isValidEstimateGas (response : json) : outcome json :=
  isValidEthServiceResponse response RpcNode Estimate_Gas None.

Definition isValidCallRequest (response : json) : outcome json :=
  isValidEthServiceResponse response RpcNode Call_Request None.

Definition isValidTokenBalance (response : json) : outcome json :=
  isValidEthServiceResponse response RpcNode Token_Balance
    (Some (fun _ => JObj [("result", JStr "Failed")])).

Definition isValidTransactionCount (response : json) : outcome json :=
  isValidEthServiceResponse response RpcNode Transaction_Count None.

Definition isValidTransactionByHash (response : json) : outcome json :=
  isValidEthServiceResponse response RpcNode Transaction_By_Hash None.

Definition isValidTransactionReceipt (response : json) : outcome json :=
  isValidEthServiceResponse response RpcNode Transaction_Receipt None.

Definition isValidCurrentBlock (response : json) : outcome json :=
  isValidEthServiceResponse response RpcNode Current_Block None.

Definition isValidRawTxApi (response : json) : outcome json :=
  isValidEthServiceResponse response RpcNode Raw_Tx None.

Definition isValidSendTransaction (response : json) : outcome json :=
  isValidEthServiceResponse response RpcNode Send_Transaction None.

Definition isValidSignMessage (response : json) : outcome json :=
  isValidEthServiceResponse response RpcNode Sign_Message None.

Definition isValidGetAccounts (response : json) : outcome json :=
  isValidEthServiceResponse response RpcNode Get_Accounts None.

Definition isValidGetNetVersion (response : json) : outcome json :=
  isValidEthServiceResponse response RpcNode Net_Version None.

Definition isValidRequestPermissions (response : json) : outcome json :=
  isValidEthServiceResponse response RpcNode Request_Permissions None.

Definition isValidGetPermissions (response : json) : outcome json :=
  isValidEthServiceResponse response RpcNode Get_Permissions None.

(** The validators that pass no fallback callback. *)
Definition validators_without_fallback : list (json -> outcome json) :=
  [ isValidGetBalance; isValidEstimateGas; isValidCallRequest;
    isValidTransactionCount; isValidTransactionByHash; isValidTransactionReceipt;
    isValidCurrentBlock; isValidRawTxApi; isValidSendTransaction;
    isValidSignMessage; isValidGetAccounts; isValidGetNetVersion;
    isValidRequestPermissions; isValidGetPermissions ].

End Rpc.

(** ** The shapes the specification names *)

(** The prefix ["0x"] or ["0X"] followed by 40 characters of the class [p]:
    with [mixed_hex] a 40-hex-digit address, with [lower_hex] an
    all-lowercase one, with [upper_hex] an all-uppercase one. *)
Definition prefixed_hex40 (p : ascii -> bool) (address : string) : Prop :=
  exists (x : ascii) (body : string),
    address = String "0" (String x body)
    /\ (x = "x"%char \/ x = "X"%char)
    /\ String.length body = 40
    /\ forallb p (list_ascii_of_string body) = true.

(** The first two characters are ["0x"] or ["0X"]. *)
Definition has_0x_prefix (address : string) : Prop :=
  substring 0 2 address = "0x" \/ substring 0 2 address = "0X".

(** A well-formed decimal number: digits, at least one, optionally
    followed by a point and at least one more digit. *)
Definition all_digits (s : string) : Prop :=
  forallb Regex.digit (list_ascii_of_string s) = true.

Definition well_formed_decimal (s : string) : Prop :=
  exists i f, all_digits i /\ all_digits f /\ i <> ""
              /\ (s = i \/ (f <> "" /\ s = i ++ "." ++ f)).

(** The decimal numeral [s] converts to [v] base units: the helper and
    the big-number library both succeed on it. *)
Definition base_units `{units : Units} (s : string) (v : Z) : Prop :=
  bigNumberify (convertedToBaseUnit s DEFAULT_DECIMAL) = Return v.

(** The inputs of a fee classification convert: the amount to [a] base
    units, the gas strings to the fee [f], the USD rate to a big number
    that makes the fee worth [v], and the local rate to a big number. *)
Definition fee_inputs_convert `{num : JSNumber} `{units : Units}
  (amount : string) (assetRateUSD assetRateFiat : number) (gasLimit gasPrice : string)
  (a f v : Z) : Prop :=
  txAmount amount = Return a
  /\ txFee gasLimit gasPrice = Return f
  /\ txFeeFiatValue assetRateUSD f = Return v
  /\ exists l, bigNumberify (getAssetRateLocal assetRateFiat) = Return l.

(** The fee, worth [fiatValue], is worth at least the fraction
    [ethFraction] of one ETH: an ETH rate is given, it is not zero and is
    positive, the value of the fraction converts, and the fiat value of
    the fee reaches it. *)
Definition fee_reaches_eth_fraction `{num : JSNumber} `{units : Units}
  (fiatValue : Z) (ethAssetRate : option number) (ethFraction : number) : Prop :=
  exists r bound,
    ethAssetRate = Some r
    /\ number_truthy r = true
    /\ number_gt_zero r = true
    /\ base_units (Number_toString (number_mul r ethFraction)) bound
    /\ (fiatValue >= bound)%Z.

(** [t] is what follows the last [c] of [s] (all of [s] when it has none). *)
Definition after_last (c : ascii) (s t : string) : Prop :=
  ~ In c (list_ascii_of_string t)
  /\ (s = t \/ exists pre, s = pre ++ String c t).

(** The line feed, and the text of the error data of an error object as
    [formatErrors] appends it. *)
Definition nl : string := String "010" "".

Definition error_data_text `{num : JSNumber} (error : json) : outcome string :=
  match get error "data" with
  | Some data => if json_truthy data then ToString data else Return ""
  | None => Return ""
  end.

(** ** A concrete runtime

    Instances of the three interfaces above, on which the functions of the
    module can be evaluated. *)

Module Model.

(** [s.padEnd(n, "0")], [s.padStart(n, "0")] and [s.replace(/0+$/, "")] *)
Definition zeros (n : nat) : string := string_of_list_ascii (repeat "0"%char n).

Definition padEnd (s : string) (n : nat) : string :=
  s ++ zeros (n - String.length s).

Definition padStart (s : string) (n : nat) : string :=
  zeros (n - String.length s) ++ s.

Fixpoint stripRightZeros (s : string) : string :=
  match s with
  | EmptyString => EmptyString
  | String c s' =>
      match stripRightZeros s' with
      | EmptyString => if Ascii.eqb c "0" then EmptyString else String c EmptyString
      | t => String c t
      end
  end.

(** A decimal numeral, read and printed. *)
Definition parse_nat_string (s : string) : Z :=
  match NilEmpty.uint_of_string s with
  | Some u => Z.of_uint u
  | None => 0%Z
  end.

Definition print_Z (z : Z) : string :=
  ((if z <? 0 then "-" else "") ++ NilZero.string_of_uint (N.to_uint (Z.abs_N z)))%Z.

(** The big numbers the library reads from a string: a decimal numeral or
    a hexadecimal one after "0x", with or without a minus sign; on any
    other string it raises. *)
Definition hex_value (c : ascii) : option Z :=
  if Regex.digit c then Some (Z.of_nat (nat_of_ascii c - 48))
  else if Regex.in_range "a" "f" c then Some (Z.of_nat (nat_of_ascii c - 87))
  else if Regex.in_range "A" "F" c then Some (Z.of_nat (nat_of_ascii c - 55))
  else None.

Fixpoint parse_hex (acc : Z) (s : string) : option Z :=
  match s with
  | EmptyString => Some acc
  | String c rest =>
      match hex_value c with
      | Some d => parse_hex (16 * acc + d)%Z rest
      | None => None
      end
  end.

Definition model_bigNumberify (s : string) : outcome Z :=
  let negative := match s with String "-" _ => true | _ => false end in
  let body := match s with String "-" rest => rest | _ => s end in
  let magnitude :=
    match body with
    | String "0" (String "x" digits) => parse_hex 0 digits
    | _ => option_map Z.of_uint (NilEmpty.uint_of_string body)
    end in
  match magnitude with
  | Some z => Return (if negative then - z else z)%Z
  | None => ThrowError "invalid BigNumber string value"
  end.

(** Numbers: the finite decimals [mant / 10^scale], with exact products.
    They print in positional notation, as the language prints the doubles
    between [1e-6] and [1e21] that they denote exactly. *)
Record dec : Type := { mant : Z; scale : nat }.

Fixpoint normalize (m : Z) (s : nat) : dec :=
  match s with
  | O => {| mant := m; scale := O |}
  | S k =>
      if (m mod 10 =? 0)%Z then normalize (m / 10) k
      else {| mant := m; scale := s |}
  end.

Definition dec_toString (d : dec) : string :=
  let n := normalize (mant d) (scale d) in
  let digits := padStart (print_Z (Z.abs (mant n))) (S (scale n)) in
  let cut := String.length digits - scale n in
  (if (mant n <? 0)%Z then "-" else "")
  ++ substring 0 cut digits
  ++ (if (scale n =? 0)%nat then "" else "." ++ substring cut (scale n) digits).

Definition dec_mul (a b : dec) : dec :=
  {| mant := mant a * mant b; scale := scale a + scale b |}.

(** The decimal a string of digits with an optional fraction denotes. *)
Definition dec_of_string (s : string) : dec :=
  match split "." s with
  | [i] => {| mant := parse_nat_string i; scale := 0 |}
  | i :: f :: _ =>
      {| mant := parse_nat_string (i ++ f); scale := String.length f |}
  | [] => {| mant := 0; scale := 0 |}
  end.

(** [d] digits after the point, the last one rounded half up. *)
Definition toFixed (x : dec) (d : nat) : string :=
  let scaled := (2 * mant x * 10 ^ Z.of_nat d + 10 ^ Z.of_nat (scale x))%Z in
  let rounded := (scaled / (2 * 10 ^ Z.of_nat (scale x)))%Z in
  let digits := padStart (print_Z rounded) (S d) in
  let cut := String.length digits - d in
  substring 0 cut digits
  ++ (if (d =? 0)%nat then "" else "." ++ substring cut d digits).

#[export] Instance decimalNumber : JSNumber := {|
  number := dec;
  Number_toString := dec_toString;
  number_mul := dec_mul;
  number_truthy := fun d => negb (mant d =? 0)%Z;
  number_gt_zero := fun d => (0 <? mant d)%Z;
  number_isInteger := fun d => (scale (normalize (mant d) (scale d)) =? 0)%nat;
  lit_0_5 := {| mant := 5; scale := 1 |};
  lit_0_15 := {| mant := 15; scale := 2 |};
  lit_0_025 := {| mant := 25; scale := 3 |};
  parseFloat_toFixed := fun s d => toFixed (dec_of_string s) d
|}.

(** An integer as a number. *)
Definition int (z : Z) : dec := {| mant := z; scale := 0 |}.

(** Modelled from the spec: [convertedToBaseUnit] of [@utils], which is not
    among the sources.  A converted amount is a decimal numeral; its base
    unit moves the point [decimal] places to the right. *)
Definition model_convertedToBaseUnit (value : string) (decimal : nat) : string :=
  if (decimal =? 0)%nat then value
  else match split "." value with
       | i :: f :: _ => i ++ padEnd f decimal
       | [i] => i ++ padEnd "" decimal
       | [] => padEnd "" decimal
       end.

(** Modelled from the spec: [baseToConvertedUnit] of [@utils], the inverse
    conversion: the point moves [decimal] places to the left and the
    zeros that end the fraction are dropped. *)
Definition model_baseToConvertedUnit (value : string) (decimal : nat) : string :=
  if (decimal =? 0)%nat then value
  else
    let paddedValue := padStart value (S decimal) in
    let cut := String.length paddedValue - decimal in
    let integerPart := substring 0 cut paddedValue in
    match stripRightZeros (substring cut decimal paddedValue) with
    | EmptyString => integerPart
    | fractionPart => integerPart ++ "." ++ fractionPart
    end.

(** Modelled from the spec: [gasStringsToMaxGasBN] of [@utils]: the gas
    price is in gwei (9 places), and the fee is the price in wei times the
    gas limit. *)
Definition model_gasStringsToMaxGasBN (gasPriceGwei gasLimit : string) : Z :=
  (parse_nat_string (model_convertedToBaseUnit gasPriceGwei 9)
   * parse_nat_string gasLimit)%Z.

(** Modelled from the spec: the helpers above with [DEFAULT_ASSET_DECIMAL]
    of [@config] as 18, and decimal numerals for the big numbers. *)
#[export] Instance decimalUnits : Units := {|
  DEFAULT_ASSET_DECIMAL := 18;
  convertedToBaseUnit := model_convertedToBaseUnit;
  baseToConvertedUnit := model_baseToConvertedUnit;
  gasStringsToMaxGasBN := model_gasStringsToMaxGasBN;
  bigNumberify := model_bigNumberify;
  BN_toString := print_Z
|}.

(** The characters of a UTF-8 string: a character starts at every byte
    that is no continuation byte, and takes two UTF-16 code units when it
    starts with a byte from 240 on.  The upper-case form is given on the
    letters a-z and on the ligature U+FB00 (the bytes 239 172 128), which
    becomes "FF"; it leaves the other characters as they are. *)
Definition is_continuation (c : ascii) : bool := Regex.in_range "128" "191" c.

Definition model_char_length (s : string) : nat :=
  List.length (filter (fun c => negb (is_continuation c)) (list_ascii_of_string s)).

Definition model_utf16_length (s : string) : nat :=
  model_char_length s
  + List.length (filter (fun c => (240 <=? nat_of_ascii c)%nat) (list_ascii_of_string s)).

Definition starts_with (p s : string) : bool := String.eqb (substring 0 (String.length p) s) p.

Fixpoint upper_from (skip : nat) (s : string) : string :=
  match s with
  | EmptyString => EmptyString
  | String c rest =>
      match skip with
      | S k => upper_from k rest
      | O =>
          if Ascii.eqb c "239" && starts_with (String "172" (String "128" "")) rest
          then "FF" ++ upper_from 2 rest
          else String (upper c) (upper_from 0 rest)
      end
  end.

Definition model_toUpperCase (s : string) : string := upper_from 0 s.

Lemma model_toUpperCase_ascii (s : string) :
  is_ascii s = true -> model_toUpperCase s = upper_ascii s.
Proof.
  unfold model_toUpperCase, is_ascii.
  induction s as [ | c s IH ]; simpl; [ reflexivity | ].
  intros Hs. apply andb_true_iff in Hs. destruct Hs as [Hc Hs].
  replace (Ascii.eqb c "239") with false.
  - simpl. rewrite (IH Hs). reflexivity.
  - symmetry. apply Ascii.eqb_neq. intros ->. discriminate Hc.
Qed.

Lemma model_char_length_ascii (s : string) :
  is_ascii s = true -> model_char_length s = String.length s.
Proof.
  unfold model_char_length, is_ascii.
  induction s as [ | c s IH ]; simpl; [ reflexivity | ].
  intros Hs. apply andb_true_iff in Hs. destruct Hs as [Hc Hs].
  replace (is_continuation c) with false.
  - simpl. rewrite (IH Hs). reflexivity.
  - symmetry. unfold is_continuation, Regex.in_range, is_ascii_char in *.
    apply Nat.ltb_lt in Hc. apply andb_false_iff. left.
    apply Nat.leb_gt. exact Hc.
Qed.

Lemma model_utf16_length_ascii (s : string) :
  is_ascii s = true -> model_utf16_length s = String.length s.
Proof.
  intros Hs. unfold model_utf16_length. rewrite (model_char_length_ascii s Hs).
  assert (Hwide : filter (fun c => (240 <=? nat_of_ascii c)%nat) (list_ascii_of_string s)
                  = []).
  { unfold is_ascii in Hs.
    induction s as [ | c s IH ]; [ reflexivity | ].
    cbn [list_ascii_of_string filter forallb] in Hs |- *.
    apply andb_true_iff in Hs. destruct Hs as [Hc Hs].
    replace (240 <=? nat_of_ascii c)%nat with false; [ exact (IH Hs) | ].
    symmetry. unfold is_ascii_char in Hc. apply Nat.ltb_lt in Hc.
    apply Nat.leb_gt. lia. }
  rewrite Hwide. simpl. lia.
Qed.

#[export] Instance utf8 : Unicode := {|
  toUpperCase := model_toUpperCase;
  utf16_length := model_utf16_length;
  char_length := model_char_length;
  toUpperCase_ascii := model_toUpperCase_ascii;
  utf16_length_ascii := model_utf16_length_ascii;
  char_length_ascii := model_char_length_ascii
|}.

(** A checksum library that knows the checksummed form of one address
    (the first test vector of EIP-55) and, for RSK, accepts nothing. *)
#[export] Instance tableAddressLib : AddressLib := {|
  toChecksumAddress := fun _ => "0x5aAeb6053F3E94C9b9A09f33669435E7Ef1BeAed";
  isValidChecksumRSKAddress := fun _ _ => false
|}.

(** Two responses that fail the schema (their [result] is [null]) and
    carry an error: one with a three-line message, one with a one-line
    message and data. *)
Definition rejected_message : string :=
  "Error: Metamask Sign Tx Error: User rejected the signature."
  ++ nl ++ "    at sign" ++ nl ++ "    at send".

Definition rejected_error : json (num := decimalNumber) :=
  JObj [ ("code", JNum (int (-32000))); ("message", JStr rejected_message) ].

Definition rejected_response : json (num := decimalNumber) :=
  JObj [ ("jsonrpc", JStr "2.0");
         ("id", JNum (int 1));
         ("result", JNull);
         ("error", rejected_error) ].

Definition reverted_error : json (num := decimalNumber) :=
  JObj [ ("code", JNum (int 3));
         ("message", JStr "execution reverted");
         ("data", JStr "0x08c379a0") ].

Definition reverted_response : json (num := decimalNumber) :=
  JObj [ ("jsonrpc", JStr "2.0");
         ("id", JNum (int 1));
         ("result", JNull);
         ("error", reverted_error) ].

End Model.

(** ** The other validators of the module *)

Definition isBurnAddress (address : string) : bool :=
  String.eqb address "0x0000000000000000000000000000000000000000"
  || String.eqb address "0x000000000000000000000000000000000000dead".

(** [r.test(s)] and [s.match(r)] for an expression without anchors: some
    part of [s] is a word of [r]. *)
Definition Any : Regex.regex := Regex.Class (fun _ => true).

Definition search (r : Regex.regex) (s : string) : bool :=
  Regex.test (Regex.Seq (Regex.Star Any) (Regex.Seq r (Regex.Star Any))) s.

(** A class given by the list of its characters. *)
Definition one_of (chars : string) (c : ascii) : bool :=
  existsb (Ascii.eqb c) (list_ascii_of_string chars).

(** [/4[0-9AB][123456789ABCDEFGHJKLMNPQRSTUVWXYZabcdefghijkmnopqrstuvwxyz]{93}/] *)
Definition base58 : ascii -> bool :=
  one_of "123456789ABCDEFGHJKLMNPQRSTUVWXYZabcdefghijkmnopqrstuvwxyz".

Definition digit_or_AB (c : ascii) : bool :=
  Regex.digit c || Ascii.eqb c "A" || Ascii.eqb c "B".

Definition xmrRegex : Regex.regex :=
  Regex.Seq (Regex.Chr "4")
    (Regex.Seq (Regex.Class digit_or_AB) (Regex.Repeat 93 (Regex.Class base58))).

Definition isValidXMRAddress (address : string) : bool :=
  search xmrRegex address.

(** [s.substring(n)] *)
Fixpoint substring_from (n : nat) (s : string) : string :=
  match n, s with
  | O, _ => s
  | S k, EmptyString => EmptyString
  | S k, String _ s' => substring_from k s'
  end.

(** [/^[0-9A-F]*$/g], applied once to a fresh expression. *)
Definition hexRegex : Regex.regex := Regex.Star (Regex.Class Regex.upper_hex).

Section Hex.
Context `{uni : Unicode}.

Definition isValidHex (str : string) : bool :=
  if String.eqb str "" then true
  else
    let str' :=
      if String.eqb (substring 0 2 str) "0x"
      then toUpperCase (substring_from 2 str)
      else toUpperCase str in
    Regex.test hexRegex str'.

Definition isValidTxHash (hash : string) : bool :=
  String.eqb (substring 0 2 hash) "0x"
  && (utf16_length hash =? 66)%nat
  && isValidHex hash.

End Hex.

(** [/\[[a-fA-F0-9]{64}\]/] *)
Definition ensLabelHashRegex : Regex.regex :=
  Regex.Seq (Regex.Chr "[")
    (Regex.Seq (Regex.Repeat 64 (Regex.Class Regex.mixed_hex)) (Regex.Chr "]")).

Definition isENSLabelHash (stringToTest : string) : bool :=
  search ensLabelHashRegex stringToTest.

(** *** The recipient field *)

(** What [isValidETHRecipientAddress] takes from elsewhere: the name test of
    [./ens/validators], the resolution errors of the resolution package,
    the message kinds of [@types] and the translations. *)
Class RecipientEnv : Type := {
  ResolutionError : Type;
  isValidENSName : string -> bool;
  InlineMessageType : Type;
  InlineMessageType_ERROR : InlineMessageType;
  InlineMessageType_INFO_CIRCLE : InlineMessageType;
  translateRaw : string -> string
}.

Module Recipient.

(** The object [isValidETHRecipientAddress] returns; a property that is
    left out is [None]. *)
Record result `{env : RecipientEnv} : Type := {
  success : bool;
  name : option string;
  type : option InlineMessageType;
  message : option string
}.

End Recipient.

Section RecipientAddress.
Context `{lib : AddressLib} `{env : RecipientEnv}.

Definition recipient_ok : Recipient.result :=
  {| Recipient.success := true;
     Recipient.name := None;
     Recipient.type := None;
     Recipient.message := None |}.

Definition recipient_error (kind : InlineMessageType) (key : string) : Recipient.result :=
  {| Recipient.success := false;
     Recipient.name := Some "ValidationError";
     Recipient.type := Some kind;
     Recipient.message := Some (translateRaw key) |}.

Definition isValidETHRecipientAddress
  (address : string) (resolutionErr : option ResolutionError) : Recipient.result :=
  let resolutionErr_truthy := match resolutionErr with Some _ => true | None => false end in
  if isValidENSName address && resolutionErr_truthy then
    (* Is a valid ENS name, but it couldn't be resolved or there is some other issue. *)
    recipient_error InlineMessageType_ERROR "TO_FIELD_ERROR"
  else if isValidENSName address && negb resolutionErr_truthy then
    (* Is a valid ENS name, and it can be resolved! *)
    recipient_ok
  else if negb (isValidENSName address)
          && isValidMixedCaseETHAddress address
          && isChecksumAddress address then
    (* isMixedCase Address that is a valid checksum *)
    recipient_ok
  else if negb (isValidENSName address)
          && isValidMixedCaseETHAddress address
          && negb (isChecksumAddress address)
          && isValidUpperOrLowerCaseETHAddress address then
    (* Is a fully-uppercase or fully-lowercase address and is an invalid checksum *)
    recipient_ok
  else if negb (isValidENSName address)
          && isValidMixedCaseETHAddress address
          && negb (isChecksumAddress address)
          && negb (isValidUpperOrLowerCaseETHAddress address) then
    (* Is not fully-uppercase or fully-lowercase address and is an invalid checksum *)
    recipient_error InlineMessageType_INFO_CIRCLE "CHECKSUM_ERROR"
  else if negb (isValidENSName address) && negb (isValidMixedCaseETHAddress address) then
    (* Is an invalid ens name & an invalid mixed-case address. *)
    recipient_error InlineMessageType_ERROR "TO_FIELD_ERROR"
  else recipient_ok.

End RecipientAddress.

(** *** The older fee test *)

(** [n.toFixed(d)] *)
Class NumberFixed `{num : JSNumber} : Type := {
  Number_toFixed : number -> nat -> string
}.

Section TransactionFeeHigh.
Context `{num : JSNumber} `{fixed : !NumberFixed} `{units : Units}.

Definition isTransactionFeeHigh
  (amount : string) (assetRate : number) (isERC20 : bool)
  (gasLimit gasPrice : string) : outcome bool :=
  if no_match amount || no_match gasLimit || no_match gasPrice then Return false
  else
    amountBN <- bigNumberify (convertedToBaseUnit amount DEFAULT_ASSET_DECIMAL) ;;
    minimum <- bigNumberify (convertedToBaseUnit "0.000001" DEFAULT_ASSET_DECIMAL) ;;
    if (amountBN <? minimum)%Z then Return false
    else
      transactionFee <- txFee gasLimit gasPrice ;;
      rate <- bigNumberify (Number_toFixed assetRate 0) ;;
      let fiatValue := (rate * transactionFee)%Z in
      (* For now transaction fees are too high if they are more than $10 fiat or
         more than the sent amount *)
      or_else (Return (negb isERC20 && (amountBN <? transactionFee)%Z))
              (bound <- bigNumberify (convertedToBaseUnit "10" DEFAULT_ASSET_DECIMAL) ;;
               Return (fiatValue >? bound)%Z).

End TransactionFeeHigh.

(** *** More of the concrete runtime *)

Module ModelMore.

(** Modelled from the spec: [isValidENSName] of [./ens/validators], which is
    not among the sources, as the strings that hold a point; the message
    kinds are their names and a translation is its key. *)
#[export] Instance dottedNames : RecipientEnv := {|
  ResolutionError := string;
  isValidENSName := fun s => existsb (Ascii.eqb ".") (list_ascii_of_string s);
  InlineMessageType := string;
  InlineMessageType_ERROR := "ERROR";
  InlineMessageType_INFO_CIRCLE := "INFO_CIRCLE";
  translateRaw := fun key => key
|}.

#[export] Instance decimalFixed : NumberFixed (num := Model.decimalNumber) :=
  @Build_NumberFixed Model.decimalNumber Model.toFixed.

(** The donation address of the Monero project. *)
Definition xmr_address : string :=
  "44AFFq5kSiGBoZ4NMDwYtN18obc8AemS33DBLWs3H7otXft3XjrpDtQGv7SqSsaBYBb98uNbr2VBBEt7f2wfn3RVGQBEP3A".



(** Three responses: one that passes the schema, one whose [result] is a
    number, and one whose [error] is a string. *)
Definition balance_response : json (num := Model.decimalNumber) :=
  JObj [ ("jsonrpc", JStr "2.0"); ("id", JNum (num := Model.decimalNumber) (Model.int 1)); ("result", JStr "0x1") ].

Definition number_result_response : json (num := Model.decimalNumber) :=
  JObj [ ("jsonrpc", JStr "2.0"); ("id", JNum (num := Model.decimalNumber) (Model.int 1));
         ("result", JNum (num := Model.decimalNumber) (Model.int 5)) ].

Definition string_error_response : json (num := Model.decimalNumber) :=
  JObj [ ("jsonrpc", JStr "2.0"); ("id", JNum (num := Model.decimalNumber) (Model.int 1));
         ("result", JNull); ("error", JStr "boom") ].

End ModelMore.

(** The three classifications that report a fee as too high. *)
Definition is_fee_error (ty : TxFeeResponseType) : bool :=
  match ty with
  | Error_Use_Lower | Error_High_Tx_Fee | Error_Very_High_Tx_Fee => true
  | _ => false
  end.

(** What the schema [RpcNode] asks of a response, property by property:
    a property that is present has the type named for it. *)
Section RpcShape.
Context `{num : JSNumber} `{uni : Unicode}.

Definition is_string (v : json) : bool :=
  match v with JStr _ => true | _ => false end.

Definition is_integer (v : json) : bool :=
  match v with JNum n => number_isInteger n | _ => false end.

Definition is_array (v : json) : bool :=
  match v with JArr _ => true | _ => false end.

Definition is_object (v : json) : bool :=
  match v with JObj _ => true | _ => false end.

Definition is_short_string (v : json) : bool :=
  match v with JStr s => (char_length s <=? 2)%nat | _ => false end.

Definition property_ok (fields : list (string * json)) (k : string) (ok : json -> bool)
  : Prop :=
  forall v, lookup k fields = Some v -> ok v = true.

End RpcShape.

(** * Properties *)

(** ** The matcher computes the denotation *)

Section RegexFacts.
Local Open Scope list_scope.
Import Regex.

Lemma Matches_Seq_inv (r1 r2 : regex) (w : list ascii) :
  Matches (Seq r1 r2) w ->
  exists w1 w2, w = w1 ++ w2 /\ Matches r1 w1 /\ Matches r2 w2.
Proof.
  intros Hm. inversion Hm; subst. eauto.
Qed.

Lemma Matches_Alt_inv (r1 r2 : regex) (w : list ascii) :
  Matches (Alt r1 r2) w -> Matches r1 w \/ Matches r2 w.
Proof.
  intros Hm. inversion Hm; subst; auto.
Qed.

Lemma Matches_Class_inv (p : ascii -> bool) (w : list ascii) :
  Matches (Class p) w -> exists c, w = [c] /\ p c = true.
Proof.
  intros Hm. inversion Hm; subst. eauto.
Qed.

Lemma Matches_Eps_inv (w : list ascii) : Matches Eps w -> w = [].
Proof.
  intros Hm. inversion Hm. reflexivity.
Qed.

Lemma Matches_nil_app_inv (r : regex) (w : list ascii) :
  Matches r w -> w = [] -> nullable r = true.
Proof.
  induction 1 as [ | p c Hp | r1 r2 w1 w2 H1 IH1 H2 IH2 | r1 r2 w H1 IH1
                  | r1 r2 w H2 IH2 | r | r w1 w2 H1 IH1 H2 IH2 ]; intros Hw; simpl.
  - reflexivity.
  - discriminate Hw.
  - apply app_eq_nil in Hw. destruct Hw as [Hw1 Hw2].
    rewrite (IH1 Hw1), (IH2 Hw2). reflexivity.
  - rewrite (IH1 Hw). reflexivity.
  - rewrite (IH2 Hw). apply orb_true_r.
  - reflexivity.
  - reflexivity.
Qed.

Lemma nullable_Matches (r : regex) : nullable r = true <-> Matches r [].
Proof.
  split.
  - induction r as [ | | p | r1 IH1 r2 IH2 | r1 IH1 r2 IH2 | r IH ]; simpl; intros Hn.
    + discriminate Hn.
    + constructor.
    + discriminate Hn.
    + apply andb_true_iff in Hn. destruct Hn as [Hn1 Hn2].
      change (@nil ascii) with (@nil ascii ++ []). constructor; auto.
    + apply orb_true_iff in Hn. destruct Hn as [Hn1 | Hn2].
      * apply MAltL; auto.
      * apply MAltR; auto.
    + constructor.
  - intros Hm. exact (Matches_nil_app_inv r [] Hm eq_refl).
Qed.

(** A non-empty word of [r*] starts with a non-empty word of [r]. *)
Lemma Matches_Star_cons_inv (r0 : regex) (w0 : list ascii) :
  Matches r0 w0 ->
  forall r c w, r0 = Star r -> w0 = c :: w ->
  exists w1 w2, w = w1 ++ w2 /\ Matches r (c :: w1) /\ Matches (Star r) w2.
Proof.
  induction 1 as [ | p c' Hp | r1 r2 w1 w2 H1 IH1 H2 IH2 | r1 r2 w' H1 IH1
                  | r1 r2 w' H2 IH2 | r' | r' w1 w2 H1 IH1 H2 IH2 ];
    intros r c w Hr Hw; try discriminate Hr.
  - discriminate Hw.
  - injection Hr as ->.
    destruct w1 as [ | a w1'].
    + simpl in Hw. exact (IH2 r c w eq_refl Hw).
    + simpl in Hw. injection Hw as -> Hw'.
      exists w1', w2. auto.
Qed.

Lemma deriv_Matches (c : ascii) (r : regex) :
  forall w, Matches (deriv c r) w <-> Matches r (c :: w).
Proof.
  induction r as [ | | p | r1 IH1 r2 IH2 | r1 IH1 r2 IH2 | r IH ]; simpl; intros w.
  - split; intros Hm; inversion Hm.
  - split; intros Hm; inversion Hm.
  - destruct (p c) eqn:Hp; split; intros Hm.
    + inversion Hm; subst. constructor. exact Hp.
    + inversion Hm; subst. constructor.
    + inversion Hm.
    + inversion Hm; subst. congruence.
  - assert (Hseq : Matches (Seq (deriv c r1) r2) w -> Matches (Seq r1 r2) (c :: w)).
    { intros Hm. apply Matches_Seq_inv in Hm. destruct Hm as (w1 & w2 & -> & Ha & Hb).
      apply IH1 in Ha. change (c :: w1 ++ w2) with ((c :: w1) ++ w2).
      constructor; assumption. }
    assert (Hinv : Matches (Seq r1 r2) (c :: w) ->
                   Matches (Seq (deriv c r1) r2) w
                   \/ (nullable r1 = true /\ Matches (deriv c r2) w)).
    { intros Hm. apply Matches_Seq_inv in Hm. destruct Hm as (w1 & w2 & Heq & Ha & Hb).
      destruct w1 as [ | a w1'].
      - simpl in Heq. subst w2. right. split.
        + apply nullable_Matches. exact Ha.
        + apply IH2. exact Hb.
      - simpl in Heq. injection Heq as <- ->. left.
        constructor; [ apply IH1 | ]; assumption. }
    destruct (nullable r1) eqn:Hn; split; intros Hm.
    + apply Matches_Alt_inv in Hm. destruct Hm as [Hm | Hm].
      * auto.
      * change (c :: w) with ([] ++ c :: w). constructor.
        -- apply nullable_Matches. exact Hn.
        -- apply IH2. assumption.
    + destruct (Hinv Hm) as [Hl | [_ Hr]]; [ apply MAltL | apply MAltR ]; assumption.
    + auto.
    + destruct (Hinv Hm) as [Hl | [Hr _]]; [ assumption | discriminate Hr ].
  - split; intros Hm; inversion Hm; subst.
    + apply MAltL, IH1. assumption.
    + apply MAltR, IH2. assumption.
    + apply MAltL, IH1. assumption.
    + apply MAltR, IH2. assumption.
  - split; intros Hm.
    + apply Matches_Seq_inv in Hm. destruct Hm as (w1 & w2 & -> & Ha & Hb).
      apply IH in Ha. change (c :: w1 ++ w2) with ((c :: w1) ++ w2).
      constructor; assumption.
    + destruct (Matches_Star_cons_inv _ _ Hm r c w eq_refl eq_refl)
        as (w1 & w2 & -> & Ha & Hb).
      constructor; [ apply IH | ]; assumption.
Qed.

Theorem matches_Matches (w : list ascii) :
  forall r, matches r w = true <-> Matches r w.
Proof.
  induction w as [ | c w IH ]; simpl; intros r.
  - apply nullable_Matches.
  - rewrite IH. apply deriv_Matches.
Qed.

End RegexFacts.

(** ** The languages of the expressions of the module *)

Section Languages.
Import Regex.
Local Open Scope list_scope.

Lemma Matches_Chr (c : ascii) (w : list ascii) :
  Matches (Chr c) w <-> w = [c].
Proof.
  unfold Chr. split.
  - intros Hm. apply Matches_Class_inv in Hm. destruct Hm as (a & -> & Ha).
    apply Ascii.eqb_eq in Ha. subst a. reflexivity.
  - intros ->. constructor. apply Ascii.eqb_refl.
Qed.

Lemma Matches_Repeat_Class (p : ascii -> bool) (n : nat) :
  forall w, Matches (Repeat n (Class p)) w <-> length w = n /\ forallb p w = true.
Proof.
  induction n as [ | n IH ]; simpl; intros w.
  - split.
    + intros Hm. apply Matches_Eps_inv in Hm. subst w. auto.
    + intros [Hl _]. apply length_zero_iff_nil in Hl. subst w. constructor.
  - split.
    + intros Hm. apply Matches_Seq_inv in Hm. destruct Hm as (w1 & w2 & -> & H1 & H2).
      apply Matches_Class_inv in H1. destruct H1 as (c & -> & Hc).
      apply IH in H2. destruct H2 as [Hl Hp]. simpl. rewrite Hl, Hc, Hp. auto.
    + intros [Hl Hp]. destruct w as [ | c w]; [ discriminate Hl | ].
      simpl in Hl, Hp. apply andb_true_iff in Hp. destruct Hp as [Hc Hp].
      change (c :: w) with ([c] ++ w). constructor.
      * constructor. exact Hc.
      * apply IH. split; [ lia | exact Hp ].
Qed.

Lemma Matches_Star_Class_forall (r0 : regex) (w : list ascii) :
  Matches r0 w -> forall p, r0 = Star (Class p) -> forallb p w = true.
Proof.
  induction 1 as [ | p' c Hp | r1 r2 w1 w2 H1 IH1 H2 IH2 | r1 r2 w H1 IH1
                  | r1 r2 w H2 IH2 | r | r w1 w2 H1 IH1 H2 IH2 ];
    intros p Hr; try discriminate Hr.
  - reflexivity.
  - injection Hr as ->. apply Matches_Class_inv in H1. destruct H1 as (c & -> & Hc).
    simpl. rewrite Hc. exact (IH2 p eq_refl).
Qed.

Lemma Matches_Star_Class (p : ascii -> bool) (w : list ascii) :
  Matches (Star (Class p)) w <-> forallb p w = true.
Proof.
  split.
  - intros Hm. exact (Matches_Star_Class_forall _ _ Hm p eq_refl).
  - induction w as [ | c w IH ]; simpl; intros Hp.
    + constructor.
    + apply andb_true_iff in Hp. destruct Hp as [Hc Hp].
      change (c :: w) with ([c] ++ w). constructor; [ constructor; exact Hc | auto ].
Qed.

Lemma length_list_ascii (s : string) :
  length (list_ascii_of_string s) = String.length s.
Proof.
  induction s as [ | c s IH ]; simpl; congruence.
Qed.

Lemma list_ascii_app (s t : string) :
  list_ascii_of_string (s ++ t)%string = list_ascii_of_string s ++ list_ascii_of_string t.
Proof.
  induction s as [ | c s IH ]; simpl; congruence.
Qed.

(** An address expression: ["0"], then ["x"] or ["X"], then the words of [body]. *)
Lemma test_prefixed (body : regex) (address : string) :
  test (Seq (Chr "0") (Seq (Alt (Chr "x") (Chr "X")) body)) address = true <->
  exists (x : ascii) (rest : string),
    address = String "0" (String x rest)
    /\ (x = "x"%char \/ x = "X"%char)
    /\ Matches body (list_ascii_of_string rest).
Proof.
  unfold test. rewrite matches_Matches. split.
  - intros Hm. apply Matches_Seq_inv in Hm. destruct Hm as (w1 & w2 & Hw & H1 & H2).
    apply Matches_Chr in H1. subst w1.
    apply Matches_Seq_inv in H2. destruct H2 as (w3 & w4 & -> & H3 & H4).
    assert (Hx : exists x, w3 = [x] /\ (x = "x"%char \/ x = "X"%char)).
    { apply Matches_Alt_inv in H3. destruct H3 as [H3 | H3];
        apply Matches_Chr in H3; subst w3; eauto. }
    destruct Hx as (x & -> & Hx).
    exists x, (string_of_list_ascii w4).
    rewrite list_ascii_of_string_of_list_ascii. repeat split; try assumption.
    rewrite <- (string_of_list_ascii_of_string address), Hw. reflexivity.
  - intros (x & rest & -> & Hx & Hb). simpl.
    change ("0"%char :: x :: list_ascii_of_string rest)
      with (["0"%char] ++ [x] ++ list_ascii_of_string rest).
    constructor; [ apply Matches_Chr; reflexivity | ].
    constructor; [ | exact Hb ].
    destruct Hx as [-> | ->]; [ apply MAltL | apply MAltR ]; apply Matches_Chr; reflexivity.
Qed.

Lemma isValidMixedCaseETHAddress_spec (address : string) :
  isValidMixedCaseETHAddress address = true <-> prefixed_hex40 mixed_hex address.
Proof.
  unfold isValidMixedCaseETHAddress, mixedCaseRegex, prefixed_hex40.
  rewrite test_prefixed.
  split; intros (x & rest & Ha & Hx & Hb); exists x, rest; repeat split; try assumption.
  - apply Matches_Repeat_Class in Hb. rewrite <- length_list_ascii. apply Hb.
  - apply Matches_Repeat_Class in Hb. apply Hb.
  - destruct Hb as [Hl Hp]. apply Matches_Repeat_Class.
    rewrite length_list_ascii. auto.
Qed.

Lemma isValidUpperOrLowerCaseETHAddress_spec (address : string) :
  isValidUpperOrLowerCaseETHAddress address = true <->
  prefixed_hex40 lower_hex address \/ prefixed_hex40 upper_hex address.
Proof.
  unfold isValidUpperOrLowerCaseETHAddress, upperOrLowerCaseRegex, prefixed_hex40.
  rewrite test_prefixed. split.
  - intros (x & rest & Ha & Hx & Hb).
    apply Matches_Alt_inv in Hb.
    destruct Hb as [Hb | Hb]; [ left | right ];
      apply Matches_Repeat_Class in Hb; destruct Hb as [Hl Hp];
      rewrite length_list_ascii in Hl; exists x, rest; auto.
  - intros [(x & rest & Ha & Hx & Hl & Hp) | (x & rest & Ha & Hx & Hl & Hp)];
      exists x, rest; repeat split; try assumption;
      [ apply MAltL | apply MAltR ]; apply Matches_Repeat_Class;
      rewrite length_list_ascii; auto.
Qed.

End Languages.

Section DecimalInput.
Import Regex.
Local Open Scope list_scope.

Lemma Matches_Plus_Class (p : ascii -> bool) (w : list ascii) :
  Matches (Plus (Class p)) w <-> w <> [] /\ forallb p w = true.
Proof.
  unfold Plus. split.
  - intros Hm. apply Matches_Seq_inv in Hm. destruct Hm as (w1 & w2 & -> & H1 & H2).
    apply Matches_Class_inv in H1. destruct H1 as (c & -> & Hc).
    apply Matches_Star_Class in H2. simpl. rewrite Hc, H2.
    split; [ discriminate | reflexivity ].
  - intros [Hne Hp]. destruct w as [ | c w ]; [ congruence | ].
    simpl in Hp. apply andb_true_iff in Hp. destruct Hp as [Hc Hp].
    change (c :: w) with ([c] ++ w).
    constructor; [ constructor; exact Hc | apply Matches_Star_Class; exact Hp ].
Qed.

Lemma string_nonempty_list (s : string) :
  s <> ""%string <-> list_ascii_of_string s <> [].
Proof.
  destruct s; simpl; split; intros Hs; congruence.
Qed.

Lemma string_of_list_ascii_app (a b : list ascii) :
  string_of_list_ascii (a ++ b) = (string_of_list_ascii a ++ string_of_list_ascii b)%string.
Proof.
  induction a as [ | c a IH ]; simpl; congruence.
Qed.

(** The expression accepts exactly the well-formed decimal numbers. *)
Lemma validInputRegex_spec (s : string) :
  test validInputRegex s = true <-> well_formed_decimal s.
Proof.
  unfold test, validInputRegex, well_formed_decimal, all_digits.
  rewrite matches_Matches. split.
  - intros Hm.
    apply Matches_Seq_inv in Hm. destruct Hm as (w1 & w23 & Hw & H1 & H23).
    apply Matches_Seq_inv in H23. destruct H23 as (w2 & w3 & -> & H2 & H3).
    apply Matches_Plus_Class in H1. destruct H1 as [Hne H1].
    apply Matches_Star_Class in H3.
    assert (Hs : s = string_of_list_ascii (w1 ++ w2 ++ w3)).
    { rewrite <- Hw. symmetry. apply string_of_list_ascii_of_string. }
    apply Matches_Alt_inv in H2. destruct H2 as [H2 | H2].
    + apply Matches_Seq_inv in H2. destruct H2 as (wd & wf & -> & Hd & Hf).
      apply Matches_Chr in Hd. subst wd.
      apply Matches_Class_inv in Hf. destruct Hf as (d & -> & Hdig).
      exists (string_of_list_ascii w1), (string_of_list_ascii (d :: w3)).
      rewrite !list_ascii_of_string_of_list_ascii.
      split; [ exact H1 | ].
      split; [ simpl; rewrite Hdig, H3; reflexivity | ].
      split.
      * apply string_nonempty_list. rewrite list_ascii_of_string_of_list_ascii. exact Hne.
      * right. split; [ simpl; discriminate | ].
        rewrite Hs, string_of_list_ascii_app. reflexivity.
    + apply Matches_Eps_inv in H2. subst w2. simpl in Hs.
      exists (string_of_list_ascii (w1 ++ w3)), ""%string.
      rewrite list_ascii_of_string_of_list_ascii.
      split; [ rewrite forallb_app, H1, H3; reflexivity | ].
      split; [ reflexivity | ].
      split.
      * apply string_nonempty_list. rewrite list_ascii_of_string_of_list_ascii.
        destruct w1; [ congruence | discriminate ].
      * left. exact Hs.
  - intros (i & f & Hi & Hf & Hne & [-> | [Hfne ->]]).
    + rewrite <- (app_nil_r (list_ascii_of_string i)).
      constructor.
      * apply Matches_Plus_Class. split; [ apply string_nonempty_list | ]; assumption.
      * change (@nil ascii) with (@nil ascii ++ []).
        constructor; [ apply MAltR; constructor | constructor ].
    + destruct f as [ | d f' ]; [ congruence | ].
      rewrite list_ascii_app. simpl. simpl in Hf.
      apply andb_true_iff in Hf. destruct Hf as [Hd Hf'].
      constructor.
      * apply Matches_Plus_Class. split; [ apply string_nonempty_list | ]; assumption.
      * change ("."%char :: d :: list_ascii_of_string f')
          with (("."%char :: [d]) ++ list_ascii_of_string f').
        constructor; [ | apply Matches_Star_Class; exact Hf' ].
        apply MAltL. change ("."%char :: [d]) with (["."%char] ++ [d]).
        constructor; [ apply Matches_Chr; reflexivity | constructor; exact Hd ].
Qed.

End DecimalInput.

(** ** Address validation *)

Section AddressFacts.
Import Regex.

Lemma includes_prefix (address : string) :
  includes ["0x"; "0X"] (substring 0 2 address) = true <-> has_0x_prefix address.
Proof.
  unfold includes, has_0x_prefix. simpl.
  rewrite !orb_true_iff, !String.eqb_eq. intuition discriminate.
Qed.

Lemma prefixed_hex40_prefix (p : ascii -> bool) (address : string) :
  prefixed_hex40 p address -> has_0x_prefix address.
Proof.
  intros (x & body & -> & [-> | ->] & _); [ left | right ]; destruct body; reflexivity.
Qed.

Lemma lower_hex_mixed (c : ascii) : lower_hex c = true -> mixed_hex c = true.
Proof.
  unfold lower_hex, mixed_hex. rewrite !orb_true_iff. tauto.
Qed.

Lemma upper_hex_mixed (c : ascii) : upper_hex c = true -> mixed_hex c = true.
Proof.
  unfold upper_hex, mixed_hex. rewrite !orb_true_iff. tauto.
Qed.

Lemma prefixed_hex40_weaken (p q : ascii -> bool) (address : string) :
  (forall c, p c = true -> q c = true) ->
  prefixed_hex40 p address -> prefixed_hex40 q address.
Proof.
  intros Hpq (x & body & Ha & Hx & Hl & Hp). exists x, body.
  repeat split; try assumption.
  rewrite forallb_forall in *. auto.
Qed.

(** The five branches of [isValidETHLikeAddress], by the two case tests. *)
Lemma isValidETHLikeAddress_cases (address : string) (flag : bool) :
  isValidETHLikeAddress address flag =
    includes ["0x"; "0X"] (substring 0 2 address)
    && isValidMixedCaseETHAddress address
    && (isValidUpperOrLowerCaseETHAddress address || flag).
Proof.
  unfold isValidETHLikeAddress.
  destruct (includes _ _); simpl; [ | reflexivity ].
  destruct (isValidMixedCaseETHAddress address) eqn:Hm;
    destruct (isValidUpperOrLowerCaseETHAddress address) eqn:Hu;
    destruct flag; simpl; try reflexivity.
  - (* upper-or-lower but not mixed: excluded by the expressions *)
    exfalso. apply isValidUpperOrLowerCaseETHAddress_spec in Hu.
    assert (Hmixed : prefixed_hex40 mixed_hex address).
    { destruct Hu as [Hu | Hu];
        [ exact (prefixed_hex40_weaken _ _ _ lower_hex_mixed Hu)
        | exact (prefixed_hex40_weaken _ _ _ upper_hex_mixed Hu) ]. }
    apply isValidMixedCaseETHAddress_spec in Hmixed. congruence.
  - exfalso. apply isValidUpperOrLowerCaseETHAddress_spec in Hu.
    assert (Hmixed : prefixed_hex40 mixed_hex address).
    { destruct Hu as [Hu | Hu];
        [ exact (prefixed_hex40_weaken _ _ _ lower_hex_mixed Hu)
        | exact (prefixed_hex40_weaken _ _ _ upper_hex_mixed Hu) ]. }
    apply isValidMixedCaseETHAddress_spec in Hmixed. congruence.
Qed.

End AddressFacts.

Section AddressClaims.
Import Regex.
Context `{lib : AddressLib}.

(** C1. A 40-hex-digit address with the "0x" or "0X" prefix whose digits
    are neither all lowercase nor all uppercase is valid exactly when its
    checksum is: [isValidETHLikeAddress] returns the checksum flag it is
    given, and [isValidETHAddress] returns true if and only if the address
    equals its checksummed form. *)
Theorem C1_mixed_case_valid_iff_checksum (address : string) :
  prefixed_hex40 mixed_hex address ->
  ~ prefixed_hex40 lower_hex address ->
  ~ prefixed_hex40 upper_hex address ->
  (forall flag, isValidETHLikeAddress address flag = flag)
  /\ (isValidETHAddress address = true <-> address = toChecksumAddress address).
Proof.
  intros Hmixed Hlower Hupper.
  assert (Hm : isValidMixedCaseETHAddress address = true)
    by (apply isValidMixedCaseETHAddress_spec; exact Hmixed).
  assert (Hu : isValidUpperOrLowerCaseETHAddress address = false).
  { destruct (isValidUpperOrLowerCaseETHAddress address) eqn:Hu; [ | reflexivity ].
    apply isValidUpperOrLowerCaseETHAddress_spec in Hu. tauto. }
  assert (Hp : includes ["0x"; "0X"] (substring 0 2 address) = true)
    by (apply includes_prefix; exact (prefixed_hex40_prefix _ _ Hmixed)).
  assert (Hflag : forall flag, isValidETHLikeAddress address flag = flag).
  { intros flag. rewrite isValidETHLikeAddress_cases, Hp, Hm, Hu. reflexivity. }
  split; [ exact Hflag | ].
  unfold isValidETHAddress. rewrite Hflag. unfold isChecksumAddress.
  apply String.eqb_eq.
Qed.

(** C5. An address whose first two characters are not "0x" or "0X" is
    invalid: [isValidETHLikeAddress] returns false whatever the checksum
    flag, and so do [isValidETHAddress] and [isValidAddress] for every
    chain id. *)
Theorem C5_missing_prefix_invalid (address : string) :
  ~ has_0x_prefix address ->
  (forall flag, isValidETHLikeAddress address flag = false)
  /\ isValidETHAddress address = false
  /\ (forall chainId, isValidAddress address chainId = false).
Proof.
  intros Hno.
  assert (Hp : includes ["0x"; "0X"] (substring 0 2 address) = false).
  { destruct (includes _ _) eqn:Hp; [ | reflexivity ].
    apply includes_prefix in Hp. contradiction. }
  assert (Hflag : forall flag, isValidETHLikeAddress address flag = false).
  { intros flag. unfold isValidETHLikeAddress. rewrite Hp. reflexivity. }
  split; [ exact Hflag | ].
  split; [ apply Hflag | ].
  intros chainId. unfold isValidAddress, getIsValidAddressFunction.
  destruct ((chainId =? 30)%Z || (chainId =? 31)%Z); apply Hflag.
Qed.

(** C6. The "0x" or "0X" prefix followed by 40 hex characters that are all
    lowercase or all uppercase is a valid address, whatever its checksummed
    form is: [isValidETHAddress] returns true, as [isValidETHLikeAddress]
    does for either value of the checksum flag. *)
Theorem C6_single_case_valid (address : string) :
  prefixed_hex40 lower_hex address \/ prefixed_hex40 upper_hex address ->
  isValidETHAddress address = true
  /\ (forall flag, isValidETHLikeAddress address flag = true).
Proof.
  intros Hcase.
  assert (Hmixed : prefixed_hex40 mixed_hex address).
  { destruct Hcase as [Hl | Hu];
      [ exact (prefixed_hex40_weaken _ _ _ lower_hex_mixed Hl)
      | exact (prefixed_hex40_weaken _ _ _ upper_hex_mixed Hu) ]. }
  assert (Hflag : forall flag, isValidETHLikeAddress address flag = true).
  { intros flag. rewrite isValidETHLikeAddress_cases.
    replace (includes ["0x"; "0X"] (substring 0 2 address)) with true
      by (symmetry; apply includes_prefix; exact (prefixed_hex40_prefix _ _ Hmixed)).
    replace (isValidMixedCaseETHAddress address) with true
      by (symmetry; apply isValidMixedCaseETHAddress_spec; exact Hmixed).
    replace (isValidUpperOrLowerCaseETHAddress address) with true
      by (symmetry; apply isValidUpperOrLowerCaseETHAddress_spec; exact Hcase).
    reflexivity. }
  split; [ apply Hflag | exact Hflag ].
Qed.

(** C8. [isValidAddress] judges the address with the RSK checksum (the
    checksum flag is [isValidChecksumRSKAddress address chainId]) when the
    chain id is 30 or 31, and is [isValidETHAddress] for every other chain
    id. *)
Theorem C8_chain_delegation (address : string) (chainId : Z) :
  isValidAddress address chainId =
    if (chainId =? 30)%Z || (chainId =? 31)%Z
    then isValidETHLikeAddress address (isValidChecksumRSKAddress address chainId)
    else isValidETHAddress address.
Proof.
  unfold isValidAddress, getIsValidAddressFunction.
  destruct ((chainId =? 30)%Z || (chainId =? 31)%Z); reflexivity.
Qed.

End AddressClaims.

(** The mixed-case address of the first EIP-55 test vector, which is its
    own checksummed form in [Model.tableAddressLib]. *)
Lemma C1_witness :
  isValidETHAddress (lib := Model.tableAddressLib)
    "0x5aAeb6053F3E94C9b9A09f33669435E7Ef1BeAed" = true
  <-> "0x5aAeb6053F3E94C9b9A09f33669435E7Ef1BeAed"
      = toChecksumAddress (AddressLib := Model.tableAddressLib)
          "0x5aAeb6053F3E94C9b9A09f33669435E7Ef1BeAed".
Proof.
  apply (C1_mixed_case_valid_iff_checksum (lib := Model.tableAddressLib)).
  - exists "x"%char, "5aAeb6053F3E94C9b9A09f33669435E7Ef1BeAed".
    split; [ reflexivity | split; [ left; reflexivity | split; reflexivity ] ].
  - intros (x & body & Heq & _ & _ & Hp).
    injection Heq as <- <-. vm_compute in Hp. discriminate Hp.
  - intros (x & body & Heq & _ & _ & Hp).
    injection Heq as <- <-. vm_compute in Hp. discriminate Hp.
Defined.

(** The all-lowercase form of that address without its prefix. *)
Lemma C5_witness :
  isValidETHAddress (lib := Model.tableAddressLib)
    "5aaeb6053f3e94c9b9a09f33669435e7ef1beaed" = false.
Proof.
  apply (C5_missing_prefix_invalid (lib := Model.tableAddressLib)).
  intros [Hp | Hp]; vm_compute in Hp; discriminate Hp.
Defined.

(** The all-lowercase form of that address, which is not its checksummed
    form. *)
Lemma C6_witness :
  isValidETHAddress (lib := Model.tableAddressLib)
    "0x5aaeb6053f3e94c9b9a09f33669435e7ef1beaed" = true.
Proof.
  apply (C6_single_case_valid (lib := Model.tableAddressLib)).
  left. exists "x"%char, "5aaeb6053f3e94c9b9a09f33669435e7ef1beaed".
  split; [ reflexivity | split; [ left; reflexivity | split; reflexivity ] ].
Defined.

(** ** Transaction-fee classification *)

Section TxFeeClaims.
Context `{num : JSNumber} `{units : Units}.

Lemma no_match_false (s : string) : no_match s = false <-> well_formed_decimal s.
Proof.
  unfold no_match. rewrite negb_false_iff. apply validInputRegex_spec.
Qed.

Lemma no_match_true (s : string) : no_match s = true <-> ~ well_formed_decimal s.
Proof.
  rewrite <- no_match_false. destruct (no_match s); split; congruence.
Qed.

(** A call unfolded down to the conversions it makes, and split by what
    each of them produces. *)
Ltac unfold_fee :=
  unfold validateTxFee, createTxFeeResponse, or_else, exceeds,
    isGreaterThanEthFraction, txTransactionFeeInEthFiatValue, txFeeFiatValue,
    txAmount, txFee, bigNumberify_value, getEthAssetRate, truthy, bind;
  cbv beta zeta.

Ltac split_matches :=
  repeat match goal with
         | |- context [ match ?x with _ => _ end ] => destruct x eqn:?
         end.

(** A response is built once the local rate converts. *)
Lemma createTxFeeResponse_classification
  (assetRateFiat : number) (a f : Z) (ty : TxFeeResponseType) :
  (exists l, bigNumberify (getAssetRateLocal assetRateFiat) = Return l) ->
  classification (createTxFeeResponse assetRateFiat a f ty) = Some ty.
Proof.
  intros (l & Hl). unfold createTxFeeResponse. rewrite Hl. reflexivity.
Qed.


(** The value of the fee in the ETH test is its fiat value: both read the
    USD rate. *)
Lemma txTransactionFeeInEthFiatValue_of_fiat
  (assetRateUSD : number) (ethAssetRate : option number) (f v : Z) :
  txFeeFiatValue assetRateUSD f = Return v ->
  txTransactionFeeInEthFiatValue assetRateUSD ethAssetRate f =
    Return match ethAssetRate with
           | Some r => if number_truthy r && number_gt_zero r then Some v else None
           | None => None
           end.
Proof.
  unfold txFeeFiatValue, txTransactionFeeInEthFiatValue, bigNumberify_value,
    getEthAssetRate, getAssetRate, truthy, bind.
  destruct (bigNumberify (convertedToBaseUnit (Number_toString assetRateUSD)
                                              DEFAULT_RATE_DECIMAL)) eqn:Hrate;
    try discriminate.
  intros Hv. injection Hv as <-.
  destruct ethAssetRate as [ r | ]; [ | reflexivity ].
  destruct (number_truthy r); simpl; [ | reflexivity ].
  destruct (number_gt_zero r); [ | reflexivity ].
  rewrite Hrate. reflexivity.
Qed.

Lemma isGreaterThanEthFraction_reaches
  (ethAssetRate : option number) (v : Z) (ethFraction : number) :
  fee_reaches_eth_fraction v ethAssetRate ethFraction ->
  isGreaterThanEthFraction ethAssetRate
    match ethAssetRate with
    | Some r => if number_truthy r && number_gt_zero r then Some v else None
    | None => None
    end ethFraction = Return true.
Proof.
  intros (r & bound & -> & Ht & Hg & Hb & Hge).
  unfold isGreaterThanEthFraction, base_units in *. rewrite Ht, Hg. simpl andb. cbv iota.
  rewrite Hb. unfold bind. f_equal. apply Z.geb_le. lia.
Qed.

(** C4. When the amount, the gas limit or the gas price is not a
    well-formed decimal number, [validateTxFee] returns the classification
    [Invalid] with no formatted amount and no formatted fee. *)
Theorem C4_malformed_input_invalid
  (amount : string) (assetRateUSD assetRateFiat : number) (isERC20 : bool)
  (gasLimit gasPrice : string) (ethAssetRate : option number) :
  ~ well_formed_decimal amount
  \/ ~ well_formed_decimal gasLimit
  \/ ~ well_formed_decimal gasPrice ->
  validateTxFee amount assetRateUSD assetRateFiat isERC20 gasLimit gasPrice ethAssetRate
  = Return {| type := Invalid; amount := None; fee := None |}.
Proof.
  intros Hbad. unfold validateTxFee.
  replace (no_match amount || no_match gasLimit || no_match gasPrice) with true;
    [ reflexivity | ].
  symmetry. rewrite !orb_true_iff, !no_match_true. tauto.
Qed.


(** C2, as the code has it.  For well-formed amount, gas limit and gas
    price whose amount, fee and rates convert to big numbers, when the
    amount is not below 0.000001 and the fiat value of the fee exceeds 100
    or the fee reaches the value of 0.5 ETH, the classification is
    [Error_Very_High_Tx_Fee]. *)
Theorem C2_very_high_fee
  (amount : string) (assetRateUSD assetRateFiat : number) (isERC20 : bool)
  (gasLimit gasPrice : string) (ethAssetRate : option number)
  (a f v minimum bound : Z) :
  well_formed_decimal amount ->
  well_formed_decimal gasLimit ->
  well_formed_decimal gasPrice ->
  fee_inputs_convert amount assetRateUSD assetRateFiat gasLimit gasPrice a f v ->
  base_units "0.000001" minimum ->
  (minimum <= a)%Z ->
  base_units "100" bound ->
  (v > bound)%Z \/ fee_reaches_eth_fraction v ethAssetRate lit_0_5 ->
  classification
    (validateTxFee amount assetRateUSD assetRateFiat isERC20
                   gasLimit gasPrice ethAssetRate) = Some Error_Very_High_Tx_Fee.
Proof.
  unfold base_units.
  intros Hwa Hwl Hwp (Ha & Hf & Hv & Hlocal) Hmin Hle Hb Hfee.
  apply no_match_false in Hwa, Hwl, Hwp.
  unfold validateTxFee. rewrite Hwa, Hwl, Hwp. simpl orb. cbv iota.
  rewrite Ha. cbn [bind]. rewrite Hf. cbn [bind]. rewrite Hv. cbn [bind].
  rewrite (txTransactionFeeInEthFiatValue_of_fiat _ ethAssetRate _ _ Hv). cbn [bind].
  cbv zeta. rewrite Hmin. cbn [bind].
  replace (a <? minimum)%Z with false by (symmetry; apply Z.ltb_ge; lia).
  cbv iota. unfold exceeds at 1. rewrite Hb. cbn [bind or_else].
  destruct (v >? bound)%Z eqn:Hgt.
  - cbn [bind]. apply createTxFeeResponse_classification. exact Hlocal.
  - destruct Hfee as [Hfiat | Heth].
    + rewrite Z.gtb_ltb in Hgt. apply Z.ltb_ge in Hgt. lia.
    + rewrite (isGreaterThanEthFraction_reaches _ _ _ Heth). cbn [bind].
      apply createTxFeeResponse_classification. exact Hlocal.
Qed.

(** C10. With the ERC-20 flag set, the classification is never [Warning]. *)
Theorem C10_erc20_never_warning
  (amount : string) (assetRateUSD assetRateFiat : number)
  (gasLimit gasPrice : string) (ethAssetRate : option number) :
  classification
    (validateTxFee amount assetRateUSD assetRateFiat true
                   gasLimit gasPrice ethAssetRate) <> Some Warning.
Proof.
  unfold_fee. simpl negb. cbv iota.
  split_matches; simpl; discriminate.
Qed.

End TxFeeClaims.

(** *** The fee claims on the concrete runtime *)

Lemma well_formed_decimal_by_test (s : string) :
  Regex.test validInputRegex s = true -> well_formed_decimal s.
Proof.
  apply validInputRegex_spec.
Qed.

Lemma not_well_formed_decimal_by_test (s : string) :
  Regex.test validInputRegex s = false -> ~ well_formed_decimal s.
Proof.
  intros Ht Hw. apply validInputRegex_spec in Hw. congruence.
Qed.

(** The amount "abc". *)
Lemma C4_witness :
  validateTxFee (num := Model.decimalNumber) (units := Model.decimalUnits)
    "abc" (Model.int 1000) (Model.int 1000) false "21000" "10" None
  = Return {| type := Invalid; amount := None; fee := None |}.
Proof.
  apply (C4_malformed_input_invalid (num := Model.decimalNumber)
           (units := Model.decimalUnits)
           "abc" (Model.int 1000) (Model.int 1000) false "21000" "10" None).
  left. apply not_well_formed_decimal_by_test. vm_compute. reflexivity.
Defined.



(** The same fee of 210 with the amount "1". *)
Lemma C2_witness :
  classification
    (validateTxFee (num := Model.decimalNumber) (units := Model.decimalUnits)
       "1" (Model.int 1000) (Model.int 1000) false "21000" "10000" None)
  = Some Error_Very_High_Tx_Fee.
Proof.
  apply (C2_very_high_fee (num := Model.decimalNumber) (units := Model.decimalUnits)
           "1" (Model.int 1000) (Model.int 1000) false "21000" "10000" None
           (10 ^ 22) 210000000000000000 (2100 * 10 ^ 21) (10 ^ 16) (10 ^ 24)).
  - apply well_formed_decimal_by_test. vm_compute. reflexivity.
  - apply well_formed_decimal_by_test. vm_compute. reflexivity.
  - apply well_formed_decimal_by_test. vm_compute. reflexivity.
  - unfold fee_inputs_convert.
    split; [ vm_compute; reflexivity | ].
    split; [ vm_compute; reflexivity | ].
    split; [ vm_compute; reflexivity | ].
    eexists. vm_compute. reflexivity.
  - unfold base_units. vm_compute. reflexivity.
  - vm_compute. intros Hle. discriminate Hle.
  - unfold base_units. vm_compute. reflexivity.
  - left. vm_compute. reflexivity.
Defined.

(** C2 as stated fails: a gas limit of 21000 at a gas price of 10000 gwei
    is a fee of 0.21 of the asset, 210 at the rate 1000, yet with the
    amount "0.0000001" the classification is [None_]. *)
Lemma C2_counterexample :
  well_formed_decimal "0.0000001"
  /\ well_formed_decimal "21000"
  /\ well_formed_decimal "10000"
  /\ txFee (units := Model.decimalUnits) "21000" "10000" = Return 210000000000000000%Z
  /\ txFeeFiatValue (num := Model.decimalNumber) (units := Model.decimalUnits)
       (Model.int 1000) 210000000000000000 = Return (2100 * 10 ^ 21)%Z
  /\ base_units (units := Model.decimalUnits) "100" (10 ^ 24)
  /\ (2100 * 10 ^ 21 > 10 ^ 24)%Z
  /\ classification
       (validateTxFee (num := Model.decimalNumber) (units := Model.decimalUnits)
          "0.0000001" (Model.int 1000) (Model.int 1000) false "21000" "10000" None)
     = Some None_.
Proof.
  repeat split;
    try (apply well_formed_decimal_by_test; vm_compute; reflexivity);
    vm_compute; reflexivity.
Qed.

(** The warning is reached without the ERC-20 flag: a fee of 0.00021
    against an amount of 0.0001. *)
Example warning_without_erc20 :
  classification
    (validateTxFee (num := Model.decimalNumber) (units := Model.decimalUnits)
       "0.0001" (Model.int 1000) (Model.int 1000) false "21000" "10" None)
  = Some Warning.
Proof.
  vm_compute. reflexivity.
Qed.

(** ** Splitting a string *)

Section SplitFacts.
Variable sep : ascii.

Lemma append_assoc (a b c : string) : (a ++ b) ++ c = a ++ (b ++ c).
Proof.
  induction a as [ | x a IH ]; simpl; congruence.
Qed.

Lemma append_nil_r (a : string) : a ++ "" = a.
Proof.
  induction a as [ | x a IH ]; simpl; congruence.
Qed.

Lemma append_length (a b : string) :
  String.length (a ++ b) = String.length a + String.length b.
Proof.
  induction a as [ | x a IH ]; simpl; congruence.
Qed.

Lemma split_not_nil (s : string) : split sep s <> [].
Proof.
  destruct s as [ | c s ]; simpl; [ discriminate | ].
  destruct (Ascii.eqb c sep); [ discriminate | ].
  destruct (split sep s); discriminate.
Qed.

(** Joining the pieces gives the string back. *)
Lemma join_split (s : string) : join sep (split sep s) = s.
Proof.
  induction s as [ | c s IH ]; [ reflexivity | ].
  cbn [split].
  destruct (split sep s) as [ | h t ] eqn:Hs; [ exact (False_ind _ (split_not_nil s Hs)) | ].
  destruct (Ascii.eqb c sep) eqn:Hc.
  - apply Ascii.eqb_eq in Hc. subst c.
    change (join sep ("" :: h :: t)) with ("" ++ String sep (join sep (h :: t))).
    rewrite IH. reflexivity.
  - destruct t as [ | h' t' ].
    + simpl in IH |- *. congruence.
    + change (join sep (String c h :: h' :: t'))
        with (String c (h ++ String sep (join sep (h' :: t')))).
      change (join sep (h :: h' :: t')) with (h ++ String sep (join sep (h' :: t'))) in IH.
      congruence.
Qed.

(** No piece holds the separator. *)
Lemma split_no_sep (s : string) :
  Forall (fun piece => ~ In sep (list_ascii_of_string piece)) (split sep s).
Proof.
  induction s as [ | c s IH ]; cbn [split].
  - constructor; [ simpl; tauto | constructor ].
  - destruct (split sep s) as [ | h t ] eqn:Hs; [ exact (False_ind _ (split_not_nil s Hs)) | ].
    destruct (Ascii.eqb c sep) eqn:Hc.
    + constructor; [ simpl; tauto | exact IH ].
    + apply Ascii.eqb_neq in Hc.
      inversion IH as [ | ? ? Hh Ht ]; subst.
      constructor; [ simpl; intuition congruence | exact Ht ].
Qed.

Lemma join_snoc (l : list string) (x : string) :
  l <> [] -> join sep (l ++ [x])%list = join sep l ++ String sep x.
Proof.
  induction l as [ | h t IH ]; intros Hne; [ congruence | ].
  destruct t as [ | h' t' ].
  - reflexivity.
  - change (join sep ((h :: h' :: t') ++ [x])%list)
      with (h ++ String sep (join sep ((h' :: t') ++ [x])%list)).
    rewrite IH by discriminate.
    change (join sep (h :: h' :: t')) with (h ++ String sep (join sep (h' :: t'))).
    rewrite append_assoc. reflexivity.
Qed.

(** The first piece starts the string. *)
Lemma first_split_prefix (s : string) :
  exists rest, s = first (split sep s) ++ rest.
Proof.
  pose proof (join_split s) as Hj.
  destruct (split sep s) as [ | h t ] eqn:Hs; [ exact (False_ind _ (split_not_nil s Hs)) | ].
  destruct t as [ | h' t' ].
  - exists "". rewrite append_nil_r. rewrite <- Hj. reflexivity.
  - exists (String sep (join sep (h' :: t'))). rewrite <- Hj. reflexivity.
Qed.

(** The last piece is what follows the last separator. *)
Lemma pop_split_after_last (s : string) :
  after_last sep s (pop (split sep s)).
Proof.
  pose proof (join_split s) as Hj.
  pose proof (split_no_sep s) as Hn.
  pose proof (split_not_nil s) as Hne.
  unfold pop, after_last.
  rewrite (app_removelast_last EmptyString Hne) in Hj, Hn.
  split.
  - rewrite Forall_forall in Hn. apply Hn. apply in_or_app. right. left. reflexivity.
  - destruct (removelast (split sep s)) as [ | h t ] eqn:Hr.
    + left. simpl in Hj. congruence.
    + right. rewrite join_snoc in Hj by discriminate. eauto.
Qed.

Lemma contains_length (s sub : string) :
  contains s sub -> String.length sub <= String.length s.
Proof.
  intros (pre & post & ->). rewrite !append_length. lia.
Qed.

End SplitFacts.

(** ** JSON-RPC response validation *)

Section RpcClaims.
Context `{num : JSNumber} `{uni : Unicode}.

(** Every validator without a fallback is [isValidEthServiceResponse] on
    [RpcNode] under some API name and with no callback. *)
Lemma validators_without_fallback_shape (v : json -> outcome json) :
  In v validators_without_fallback ->
  exists apiName,
    forall response, v response = isValidEthServiceResponse response RpcNode apiName None.
Proof.
  unfold validators_without_fallback. simpl. intros Hin.
  repeat (destruct Hin as [ <- | Hin ]; [ eexists; intros response; reflexivity | ]).
  contradiction.
Qed.

(** What [formatErrors] returns on a response that carries an error
    message. *)
Lemma formatErrors_with_message
  (response error : json) (message apiType : string) :
  get response "error" = Some error ->
  get error "message" = Some (JStr message) ->
  formatErrors response apiType =
    if (2 <? List.length (split "010" message))%nat
    then Return (pop (split ":" (first (split "010" message))))
    else data <- error_data_text error ;; Return (message ++ " " ++ data).
Proof.
  intros He Hm. unfold formatErrors, error_data_text.
  destruct response; try discriminate He. rewrite He.
  destruct error; try discriminate Hm. simpl json_truthy. cbv iota.
  rewrite Hm. destruct (2 <? _)%nat; reflexivity.
Qed.

(** C3, as the code has it.  On a response that fails the schema and
    carries an error message, every validator without a fallback raises.
    When the error message has more than two lines, the raised message is
    only what follows the last colon of the first line.  When it has at
    most two lines, the raised message is the whole error message, a space
    and the error data as text, which contains the first line; an error
    data that cannot be turned into text makes the conversion raise its
    [TypeError] instead. *)
Theorem C3_raised_message
  (response error : json) (message : string) (v : json -> outcome json) :
  isValidResult response RpcNode = false ->
  get response "error" = Some error ->
  get error "message" = Some (JStr message) ->
  In v validators_without_fallback ->
  (2 < List.length (split "010" message)
   /\ exists msg,
        v response = ThrowError msg
        /\ after_last ":" (first (split "010" message)) msg)
  \/ (List.length (split "010" message) <= 2
      /\ v response
         = (data <- error_data_text error ;; ThrowError (message ++ " " ++ data))
      /\ forall data,
           contains (message ++ " " ++ data) (first (split "010" message))).
Proof.
  intros Hbad He Hm Hin.
  destruct (validators_without_fallback_shape v Hin) as (apiName & Hv).
  rewrite Hv. unfold isValidEthServiceResponse. rewrite Hbad. simpl negb. cbv iota.
  rewrite (formatErrors_with_message response error message _ He Hm).
  destruct (2 <? List.length (split "010" message))%nat eqn:Hlines.
  - apply Nat.ltb_lt in Hlines. left. split; [ exact Hlines | ].
    eexists. split; [ reflexivity | apply pop_split_after_last ].
  - apply Nat.ltb_ge in Hlines. right. split; [ exact Hlines | ]. split.
    + destruct (error_data_text error); reflexivity.
    + intros data. destruct (first_split_prefix "010" message) as (rest & Hrest).
      exists "", (rest ++ " " ++ data). simpl.
      rewrite <- append_assoc, <- Hrest. reflexivity.
Qed.

(** [isValidTokenBalance] returns on every response. *)
Lemma isValidTokenBalance_returns (response : json) :
  exists r, isValidTokenBalance response = Return r.
Proof.
  unfold isValidTokenBalance, isValidEthServiceResponse.
  destruct (negb (isValidResult response RpcNode)); eauto.
Qed.

(** A validator without a fallback raises on a response that fails the
    schema: an [Error], or the [TypeError] of a property access. *)
Lemma validators_without_fallback_raise
  (response : json) (v : json -> outcome json) :
  isValidResult response RpcNode = false ->
  In v validators_without_fallback ->
  forall r, v response <> Return r.
Proof.
  intros Hbad Hin r.
  destruct (validators_without_fallback_shape v Hin) as (apiName & Hv).
  rewrite Hv. unfold isValidEthServiceResponse. rewrite Hbad. simpl negb. cbv iota.
  destruct (formatErrors response (API_NAME_value apiName)); discriminate.
Qed.

(** C9. On a response that fails the schema, [isValidTokenBalance] raises
    nothing and returns the fallback value [{ result: 'Failed' }], while
    every validator without a fallback raises. *)
Theorem C9_token_balance_fallback (response : json) :
  isValidResult response RpcNode = false ->
  isValidTokenBalance response = Return (JObj [("result", JStr "Failed")])
  /\ (forall v, In v validators_without_fallback ->
                forall r, v response <> Return r).
Proof.
  intros Hbad. split.
  - unfold isValidTokenBalance, isValidEthServiceResponse. rewrite Hbad. reflexivity.
  - intros v Hin. exact (validators_without_fallback_raise response v Hbad Hin).
Qed.

End RpcClaims.

(** *** The response claims on the concrete runtime *)

Section RpcExamples.
Local Existing Instance Model.decimalNumber.
Local Existing Instance Model.utf8.

(** C3 as stated fails: the three-line error message of
    [Model.rejected_response] makes [isValidGetBalance] raise only what
    follows the last colon of the first line, which does not contain that
    line. *)
Lemma C3_counterexample :
  isValidResult Model.rejected_response RpcNode = false
  /\ get Model.rejected_response "error" = Some Model.rejected_error
  /\ get Model.rejected_error "message" = Some (JStr Model.rejected_message)
  /\ first (split "010" Model.rejected_message)
     = "Error: Metamask Sign Tx Error: User rejected the signature."
  /\ In isValidGetBalance validators_without_fallback
  /\ isValidGetBalance Model.rejected_response
     = ThrowError " User rejected the signature."
  /\ ~ contains " User rejected the signature."
                (first (split "010" Model.rejected_message)).
Proof.
  split; [ vm_compute; reflexivity | ].
  split; [ reflexivity | ].
  split; [ reflexivity | ].
  split; [ vm_compute; reflexivity | ].
  split; [ left; reflexivity | ].
  split; [ reflexivity | ].
  intros Hc. apply contains_length in Hc. vm_compute in Hc. lia.
Qed.

(** A one-line error message with data. *)
Lemma C3_witness :
  (2 < List.length (split "010" "execution reverted")
   /\ exists msg,
        isValidGetBalance Model.reverted_response = ThrowError msg
        /\ after_last ":" (first (split "010" "execution reverted")) msg)
  \/ (List.length (split "010" "execution reverted") <= 2
      /\ isValidGetBalance Model.reverted_response
         = (data <- error_data_text Model.reverted_error ;;
            ThrowError ("execution reverted" ++ " " ++ data))
      /\ forall data,
           contains ("execution reverted" ++ " " ++ data)
                    (first (split "010" "execution reverted"))).
Proof.
  apply (C3_raised_message (num := Model.decimalNumber) (uni := Model.utf8)
           Model.reverted_response Model.reverted_error
           "execution reverted" isValidGetBalance).
  - vm_compute. reflexivity.
  - reflexivity.
  - reflexivity.
  - left. reflexivity.
Defined.

(** What that response raises, and what an error data with a property
    [toString] of its own raises. *)
Example reverted_response_raises :
  isValidGetBalance Model.reverted_response
  = ThrowError "execution reverted 0x08c379a0".
Proof.
  reflexivity.
Qed.

Example own_toString_raises_TypeError :
  isValidGetBalance
    (JObj [ ("result", JNull);
            ("error",
             JObj [ ("message", JStr "m");
                    ("data", JObj [ ("toString", JNum (num := Model.decimalNumber)
                                                   (Model.int 1)) ]) ]) ])
  = ThrowTypeError.
Proof.
  reflexivity.
Qed.

(** The response of the counterexample above. *)
Lemma C9_witness :
  isValidTokenBalance Model.rejected_response
  = Return (JObj [("result", JStr "Failed")]).
Proof.
  apply (C9_token_balance_fallback (num := Model.decimalNumber) (uni := Model.utf8)
           Model.rejected_response).
  vm_compute. reflexivity.
Defined.

End RpcExamples.

(** * Further properties of the module *)

(** ** Addresses on every chain *)

Section AddressMore.
Import Regex.
Context `{lib : AddressLib}.

Lemma isValidETHLikeAddress_reduced (address : string) (flag : bool) :
  isValidETHLikeAddress address flag =
    isValidMixedCaseETHAddress address
    && (isValidUpperOrLowerCaseETHAddress address || flag).
Proof.
  rewrite isValidETHLikeAddress_cases.
  destruct (isValidMixedCaseETHAddress address) eqn:Hm.
  - apply isValidMixedCaseETHAddress_spec in Hm.
    apply prefixed_hex40_prefix, includes_prefix in Hm. rewrite Hm. reflexivity.
  - rewrite andb_false_r. reflexivity.
Qed.

Lemma single_case_accepted (address : string) (chainId : Z) :
  prefixed_hex40 lower_hex address \/ prefixed_hex40 upper_hex address ->
  isValidAddress address chainId = true.
Proof.
  intros Hcase.
  assert (Hu : isValidUpperOrLowerCaseETHAddress address = true)
    by (apply isValidUpperOrLowerCaseETHAddress_spec; exact Hcase).
  assert (Hm : isValidMixedCaseETHAddress address = true).
  { apply isValidMixedCaseETHAddress_spec.
    destruct Hcase as [Hl | Hup];
      [ exact (prefixed_hex40_weaken _ _ _ lower_hex_mixed Hl)
      | exact (prefixed_hex40_weaken _ _ _ upper_hex_mixed Hup) ]. }
  unfold isValidAddress, getIsValidAddressFunction.
  destruct ((chainId =? 30)%Z || (chainId =? 31)%Z);
    unfold isValidRSKAddress, isValidETHAddress;
    rewrite isValidETHLikeAddress_reduced, Hm, Hu; reflexivity.
Qed.


(** X2. An address that [isValidAddress] accepts, on whatever chain, is the
    prefix "0x" or "0X" followed by 40 hex digits: 42 characters. *)
Theorem isValidAddress_shape (address : string) (chainId : Z) :
  isValidAddress address chainId = true ->
  prefixed_hex40 mixed_hex address /\ String.length address = 42.
Proof.
  intros Hv.
  assert (Hm : isValidMixedCaseETHAddress address = true).
  { unfold isValidAddress, getIsValidAddressFunction in Hv.
    destruct ((chainId =? 30)%Z || (chainId =? 31)%Z);
      unfold isValidRSKAddress, isValidETHAddress in Hv;
      rewrite isValidETHLikeAddress_reduced in Hv;
      apply andb_true_iff in Hv; apply Hv. }
  apply isValidMixedCaseETHAddress_spec in Hm. split; [ exact Hm | ].
  destruct Hm as (x & body & -> & _ & Hl & _). simpl. rewrite Hl. reflexivity.
Qed.

(** X3. An all-lowercase or all-uppercase address is valid on every chain,
    the RSK chains 30 and 31 included, whatever the checksum functions
    answer. *)
Theorem single_case_valid_on_every_chain (address : string) (chainId : Z) :
  prefixed_hex40 lower_hex address \/ prefixed_hex40 upper_hex address ->
  isValidAddress address chainId = true.
Proof.
  exact (single_case_accepted address chainId).
Qed.

(** X4. The two burn addresses are valid addresses on every chain. *)
Theorem burn_address_valid_on_every_chain (address : string) (chainId : Z) :
  isBurnAddress address = true ->
  isValidAddress address chainId = true.
Proof.
  unfold isBurnAddress. intros Hb.
  apply single_case_accepted. left.
  apply orb_true_iff in Hb. destruct Hb as [Hb | Hb]; apply String.eqb_eq in Hb; subst address.
  - exists "x"%char, "0000000000000000000000000000000000000000".
    split; [ reflexivity | split; [ left; reflexivity | split; reflexivity ] ].
  - exists "x"%char, "000000000000000000000000000000000000dead".
    split; [ reflexivity | split; [ left; reflexivity | split; reflexivity ] ].
Qed.

End AddressMore.

(** The checksummed test vector on chain 1. *)
Lemma isValidAddress_shape_witness :
  prefixed_hex40 Regex.mixed_hex "0x5aAeb6053F3E94C9b9A09f33669435E7Ef1BeAed"
  /\ String.length "0x5aAeb6053F3E94C9b9A09f33669435E7Ef1BeAed" = 42.
Proof.
  apply (isValidAddress_shape (lib := Model.tableAddressLib) _ 1%Z).
  vm_compute. reflexivity.
Defined.

(** The lowercase test vector on the RSK chain 30, whose checksum test
    answers false. *)
Lemma single_case_valid_on_every_chain_witness :
  isValidAddress (lib := Model.tableAddressLib)
    "0x5aaeb6053f3e94c9b9a09f33669435e7ef1beaed" 30 = true.
Proof.
  apply single_case_valid_on_every_chain.
  left. exists "x"%char, "5aaeb6053f3e94c9b9a09f33669435e7ef1beaed".
  split; [ reflexivity | split; [ left; reflexivity | split; reflexivity ] ].
Defined.

(** The dead address on chain 31. *)
Lemma burn_address_valid_on_every_chain_witness :
  isValidAddress (lib := Model.tableAddressLib)
    "0x000000000000000000000000000000000000dead" 31 = true.
Proof.
  apply burn_address_valid_on_every_chain. vm_compute. reflexivity.
Defined.

(** ** The recipient field *)

Section RecipientFacts.
Import Regex.
Context `{lib : AddressLib} `{env : RecipientEnv}.

Lemma isValidETHAddress_closed_form (address : string) :
  isValidETHAddress address =
    isValidMixedCaseETHAddress address
    && (isValidUpperOrLowerCaseETHAddress address || isChecksumAddress address).
Proof.
  unfold isValidETHAddress. apply isValidETHLikeAddress_reduced.
Qed.

(** X5. For a string that is not an ENS name, the recipient field
    succeeds exactly when [isValidETHAddress] accepts the string, with or
    without a resolution error. *)
Theorem recipient_success_is_address_validity
  (address : string) (resolutionErr : option ResolutionError) :
  isValidENSName address = false ->
  Recipient.success (isValidETHRecipientAddress address resolutionErr)
  = isValidETHAddress address.
Proof.
  intros Hens. rewrite isValidETHAddress_closed_form.
  unfold isValidETHRecipientAddress. rewrite Hens. simpl.
  destruct (isValidMixedCaseETHAddress address);
    destruct (isChecksumAddress address);
    destruct (isValidUpperOrLowerCaseETHAddress address); reflexivity.
Qed.

(** X6. For an ENS name, the recipient field succeeds exactly when there is
    no resolution error, whatever the string looks like as an address; the
    failure is the field error. *)
Theorem recipient_name_follows_resolution
  (address : string) (resolutionErr : option ResolutionError) :
  isValidENSName address = true ->
  isValidETHRecipientAddress address resolutionErr =
    match resolutionErr with
    | Some _ => recipient_error InlineMessageType_ERROR "TO_FIELD_ERROR"
    | None => recipient_ok
    end.
Proof.
  intros Hens. unfold isValidETHRecipientAddress. rewrite Hens.
  destruct resolutionErr; reflexivity.
Qed.

(** X7. A string that is not an ENS name and is 40 hex digits after the
    prefix, in neither single case and not its own checksummed form, gets
    the checksum message; every other string that is not an ENS name and
    fails gets the field error. *)
Theorem recipient_checksum_error
  (address : string) (resolutionErr : option ResolutionError) :
  isValidENSName address = false ->
  Recipient.success (isValidETHRecipientAddress address resolutionErr) = false ->
  isValidETHRecipientAddress address resolutionErr =
    if isValidMixedCaseETHAddress address
    then recipient_error InlineMessageType_INFO_CIRCLE "CHECKSUM_ERROR"
    else recipient_error InlineMessageType_ERROR "TO_FIELD_ERROR".
Proof.
  intros Hens. unfold isValidETHRecipientAddress. rewrite Hens. simpl.
  destruct (isValidMixedCaseETHAddress address);
    destruct (isChecksumAddress address);
    destruct (isValidUpperOrLowerCaseETHAddress address);
    simpl; intros Hs; try reflexivity; discriminate Hs.
Qed.

End RecipientFacts.

(** The lowercase test vector, which is no name. *)
Lemma recipient_success_is_address_validity_witness :
  Recipient.success
    (isValidETHRecipientAddress (lib := Model.tableAddressLib)
       (env := ModelMore.dottedNames)
       "0x5aaeb6053f3e94c9b9a09f33669435e7ef1beaed" None)
  = isValidETHAddress (lib := Model.tableAddressLib)
      "0x5aaeb6053f3e94c9b9a09f33669435e7ef1beaed".
Proof.
  apply recipient_success_is_address_validity. reflexivity.
Defined.

(** A name with a resolution error. *)
Lemma recipient_name_follows_resolution_witness :
  isValidETHRecipientAddress (lib := Model.tableAddressLib)
    (env := ModelMore.dottedNames) "wallet.eth" (Some "unregistered")
  = recipient_error (env := ModelMore.dottedNames)
      (InlineMessageType_ERROR (RecipientEnv := ModelMore.dottedNames)) "TO_FIELD_ERROR".
Proof.
  apply (recipient_name_follows_resolution (lib := Model.tableAddressLib)
           (env := ModelMore.dottedNames) "wallet.eth" (Some "unregistered")).
  reflexivity.
Defined.

(** The test vector with one letter in the wrong case. *)
Lemma recipient_checksum_error_witness :
  isValidETHRecipientAddress (lib := Model.tableAddressLib)
    (env := ModelMore.dottedNames)
    "0x5AAeb6053F3E94C9b9A09f33669435E7Ef1BeAed" None
  = recipient_error (env := ModelMore.dottedNames)
      (InlineMessageType_INFO_CIRCLE (RecipientEnv := ModelMore.dottedNames))
      "CHECKSUM_ERROR".
Proof.
  apply (recipient_checksum_error (lib := Model.tableAddressLib)
           (env := ModelMore.dottedNames)
           "0x5AAeb6053F3E94C9b9A09f33669435E7Ef1BeAed" None).
  - reflexivity.
  - vm_compute. reflexivity.
Defined.

(** ** Hex strings and transaction hashes *)

Section HexFacts.
Import Regex.
Context `{uni : Unicode}.

Lemma test_Star_Class (p : ascii -> bool) (s : string) :
  test (Star (Class p)) s = forallb p (list_ascii_of_string s).
Proof.
  unfold test.
  destruct (matches (Star (Class p)) (list_ascii_of_string s)) eqn:Hm.
  - apply matches_Matches, Matches_Star_Class in Hm. congruence.
  - destruct (forallb p (list_ascii_of_string s)) eqn:Hf; [ | reflexivity ].
    apply Matches_Star_Class, matches_Matches in Hf. congruence.
Qed.

(** After upper-casing, the class [[0-9A-F]] is the class [[a-fA-F0-9]]. *)
Lemma upper_hex_upper (c : ascii) : upper_hex (upper c) = mixed_hex c.
Proof.
  destruct c as [[|] [|] [|] [|] [|] [|] [|] [|]]; reflexivity.
Qed.

Lemma forallb_upper_hex_upper_ascii (s : string) :
  forallb upper_hex (list_ascii_of_string (upper_ascii s))
  = forallb mixed_hex (list_ascii_of_string s).
Proof.
  induction s as [ | c s IH ]; simpl; [ reflexivity | ].
  rewrite upper_hex_upper, IH. reflexivity.
Qed.

Lemma test_hexRegex_toUpperCase (s : string) :
  is_ascii s = true ->
  test hexRegex (toUpperCase s) = forallb mixed_hex (list_ascii_of_string s).
Proof.
  intros Hs. rewrite (toUpperCase_ascii s Hs).
  unfold hexRegex. rewrite test_Star_Class. apply forallb_upper_hex_upper_ascii.
Qed.

Lemma substring_0x (s : string) :
  String.eqb (substring 0 2 s) "0x" = true <-> s = "0x" ++ substring_from 2 s.
Proof.
  rewrite String.eqb_eq.
  destruct s as [ | a [ | b s' ] ]; simpl.
  - split; discriminate.
  - split; discriminate.
  - replace (substring 0 0 s') with "" by (destruct s'; reflexivity).
    split; intros Heq; injection Heq as -> ->; reflexivity.
Qed.

Lemma substring_from_0x (body : string) : substring_from 2 ("0x" ++ body) = body.
Proof.
  reflexivity.
Qed.

Lemma is_ascii_0x (body : string) : is_ascii ("0x" ++ body) = is_ascii body.
Proof.
  reflexivity.
Qed.

Lemma isValidHex_iff (str : string) :
  is_ascii str = true ->
  (isValidHex str = true <->
   exists body,
     (str = body \/ str = "0x" ++ body)
     /\ forallb mixed_hex (list_ascii_of_string body) = true).
Proof.
  intros Hascii. unfold isValidHex. cbv zeta. split.
  - destruct (String.eqb str "") eqn:He.
    + apply String.eqb_eq in He. subst str. intros _. exists "". auto.
    + destruct (String.eqb (substring 0 2 str) "0x") eqn:Hp; cbv iota.
      * apply substring_0x in Hp.
        rewrite test_hexRegex_toUpperCase
          by (rewrite Hp, is_ascii_0x in Hascii; exact Hascii).
        intros Hh. exists (substring_from 2 str). auto.
      * rewrite (test_hexRegex_toUpperCase str Hascii).
        intros Hh. exists str. auto.
  - intros (body & [-> | ->] & Hh).
    + destruct (String.eqb body "") eqn:He; [ reflexivity | ].
      destruct (String.eqb (substring 0 2 body) "0x") eqn:Hp.
      * apply substring_0x in Hp. rewrite Hp in Hh. simpl in Hh. discriminate Hh.
      * cbv iota. rewrite (test_hexRegex_toUpperCase body Hascii). exact Hh.
    + assert (H1 : String.eqb ("0x" ++ body) "" = false) by reflexivity.
      assert (H2 : String.eqb (substring 0 2 ("0x" ++ body)) "0x" = true)
        by (apply substring_0x; reflexivity).
      rewrite H1, H2, substring_from_0x.
      rewrite is_ascii_0x in Hascii.
      rewrite (test_hexRegex_toUpperCase body Hascii). exact Hh.
Qed.

(** X8. On ASCII strings [isValidHex] accepts exactly the strings of hex
    digits in either case, with or without a leading "0x": the empty
    string and "0x" alone are accepted, and the prefix "0X" is not. *)
Theorem isValidHex_spec (str : string) :
  is_ascii str = true ->
  (isValidHex str = true <->
   exists body,
     (str = body \/ str = "0x" ++ body)
     /\ forallb mixed_hex (list_ascii_of_string body) = true).
Proof.
  exact (isValidHex_iff str).
Qed.

(** X9. On ASCII strings [isValidTxHash] accepts exactly "0x" followed by
    64 hex digits in either case. *)
Theorem isValidTxHash_spec (hash : string) :
  is_ascii hash = true ->
  (isValidTxHash hash = true <->
   exists body,
     hash = "0x" ++ body
     /\ String.length body = 64
     /\ forallb mixed_hex (list_ascii_of_string body) = true).
Proof.
  intros Hascii. unfold isValidTxHash.
  rewrite (utf16_length_ascii hash Hascii).
  rewrite !andb_true_iff, Nat.eqb_eq, substring_0x, (isValidHex_iff hash Hascii).
  split.
  - intros [[Hp Hl] Hh].
    remember (substring_from 2 hash) as rest eqn:Hrest. clear Hrest. subst hash.
    exists rest. split; [ reflexivity | ].
    simpl in Hl. split; [ lia | ].
    destruct Hh as (body & [Hb | Hb] & Hh).
    + rewrite <- Hb in Hh. simpl in Hh. discriminate Hh.
    + injection Hb as Hb. rewrite Hb. exact Hh.
  - intros (body & -> & Hl & Hh). split; [ split | ].
    + reflexivity.
    + simpl. rewrite Hl. reflexivity.
    + exists body. auto.
Qed.

End HexFacts.

(** Hex digits of both cases after "0x". *)
Lemma isValidHex_spec_witness :
  isValidHex (uni := Model.utf8) "0x0123456789abcdefABCDEF" = true <->
  exists body,
    ("0x0123456789abcdefABCDEF" = body \/ "0x0123456789abcdefABCDEF" = "0x" ++ body)
    /\ forallb Regex.mixed_hex (list_ascii_of_string body) = true.
Proof.
  apply (isValidHex_spec (uni := Model.utf8) "0x0123456789abcdefABCDEF").
  vm_compute. reflexivity.
Defined.

(** A hash of the sixteen digits, four times over. *)
Lemma isValidTxHash_spec_witness :
  isValidTxHash (uni := Model.utf8)
    "0x0123456789abcdef0123456789abcdef0123456789ABCDEF0123456789ABCDEF" = true <->
  exists body,
    "0x0123456789abcdef0123456789abcdef0123456789ABCDEF0123456789ABCDEF" = "0x" ++ body
    /\ String.length body = 64
    /\ forallb Regex.mixed_hex (list_ascii_of_string body) = true.
Proof.
  apply (isValidTxHash_spec (uni := Model.utf8)
           "0x0123456789abcdef0123456789abcdef0123456789ABCDEF0123456789ABCDEF").
  vm_compute. reflexivity.
Defined.

(** Outside ASCII the upper-case form can bring a character into the
    class: the ligature U+FB00, whose upper-case form is "FF", is accepted
    by both tests. *)
Example isValidHex_ligature :
  isValidHex (uni := Model.utf8) (String "239" (String "172" (String "128" ""))) = true
  /\ isValidTxHash (uni := Model.utf8)
       ("0x0123456789abcdef0123456789abcdef0123456789ABCDEF0123456789ABCDE"
        ++ String "239" (String "172" (String "128" ""))) = true.
Proof.
  split; vm_compute; reflexivity.
Qed.

(** ** Expressions without anchors *)

Section SearchFacts.
Import Regex.

Lemma Matches_Star_Any (w : list ascii) : Matches (Star Any) w.
Proof.
  apply Matches_Star_Class. induction w as [ | c w IH ]; [ reflexivity | exact IH ].
Qed.

(** An expression without anchors is found in a string exactly when some
    part of the string is one of its words. *)
Lemma search_spec (r : regex) (s : string) :
  search r s = true <->
  exists pre mid post,
    s = pre ++ mid ++ post /\ Matches r (list_ascii_of_string mid).
Proof.
  unfold search, test. rewrite matches_Matches. split.
  - intros Hm.
    apply Matches_Seq_inv in Hm. destruct Hm as (w1 & w23 & Hw & _ & H23).
    apply Matches_Seq_inv in H23. destruct H23 as (w2 & w3 & -> & H2 & _).
    exists (string_of_list_ascii w1), (string_of_list_ascii w2), (string_of_list_ascii w3).
    rewrite list_ascii_of_string_of_list_ascii. split; [ | exact H2 ].
    rewrite <- !string_of_list_ascii_app, <- Hw.
    symmetry. apply string_of_list_ascii_of_string.
  - intros (pre & mid & post & -> & Hm).
    rewrite !list_ascii_app.
    constructor; [ apply Matches_Star_Any | ].
    constructor; [ exact Hm | apply Matches_Star_Any ].
Qed.

Lemma Matches_xmrRegex (w : list ascii) :
  Matches xmrRegex w <->
  exists d body,
    w = ("4"%char :: d :: body)%list
    /\ digit_or_AB d = true
    /\ List.length body = 93
    /\ forallb base58 body = true.
Proof.
  unfold xmrRegex. split.
  - intros Hm.
    apply Matches_Seq_inv in Hm. destruct Hm as (w1 & w2 & -> & H1 & H2).
    apply Matches_Chr in H1. subst w1.
    apply Matches_Seq_inv in H2. destruct H2 as (w3 & w4 & -> & H3 & H4).
    apply Matches_Class_inv in H3. destruct H3 as (d & -> & Hd).
    apply Matches_Repeat_Class in H4. destruct H4 as [Hl Hb].
    exists d, w4. auto.
  - intros (d & body & -> & Hd & Hl & Hb).
    change ("4"%char :: d :: body)%list with (["4"%char] ++ [d] ++ body)%list.
    constructor; [ apply Matches_Chr; reflexivity | ].
    constructor; [ constructor; exact Hd | ].
    apply Matches_Repeat_Class. auto.
Qed.

Lemma isValidXMRAddress_iff (address : string) :
  isValidXMRAddress address = true <->
  exists pre d body post,
    address = pre ++ String "4" (String d body) ++ post
    /\ digit_or_AB d = true
    /\ String.length body = 93
    /\ forallb base58 (list_ascii_of_string body) = true.
Proof.
  unfold isValidXMRAddress. rewrite search_spec. split.
  - intros (pre & mid & post & -> & Hm).
    apply Matches_xmrRegex in Hm. destruct Hm as (d & body & Hmid & Hd & Hl & Hb).
    exists pre, d, (string_of_list_ascii body), post.
    rewrite list_ascii_of_string_of_list_ascii, <- length_list_ascii,
      list_ascii_of_string_of_list_ascii.
    repeat split; try assumption.
    rewrite <- (string_of_list_ascii_of_string mid), Hmid. reflexivity.
  - intros (pre & d & body & post & -> & Hd & Hl & Hb).
    exists pre, (String "4" (String d body)), post. split; [ reflexivity | ].
    apply Matches_xmrRegex. exists d, (list_ascii_of_string body).
    rewrite length_list_ascii. auto.
Qed.

(** X10. [isValidXMRAddress] accepts exactly the strings that hold,
    anywhere, a "4", then a digit or "A" or "B", then 93 characters of the
    base-58 alphabet; what comes before and after is not looked at. *)
Theorem isValidXMRAddress_spec (address : string) :
  isValidXMRAddress address = true <->
  exists pre d body post,
    address = pre ++ String "4" (String d body) ++ post
    /\ digit_or_AB d = true
    /\ String.length body = 93
    /\ forallb base58 (list_ascii_of_string body) = true.
Proof.
  exact (isValidXMRAddress_iff address).
Qed.

(** X11. An accepted string has at least 95 characters, and stays accepted
    with any text put before and after it. *)
Theorem isValidXMRAddress_unanchored (address : string) :
  isValidXMRAddress address = true ->
  95 <= String.length address
  /\ forall pre post, isValidXMRAddress (pre ++ address ++ post) = true.
Proof.
  intros Hv. apply isValidXMRAddress_iff in Hv.
  destruct Hv as (pre0 & d & body & post0 & -> & Hd & Hl & Hb). split.
  - rewrite !append_length. simpl. lia.
  - intros pre post. apply isValidXMRAddress_iff.
    exists (pre ++ pre0), d, body, (post0 ++ post).
    repeat split; try assumption.
    rewrite !append_assoc. reflexivity.
Qed.

Lemma Matches_ensLabelHashRegex (w : list ascii) :
  Matches ensLabelHashRegex w <->
  exists body,
    w = ("["%char :: body ++ ["]"%char])%list
    /\ List.length body = 64
    /\ forallb mixed_hex body = true.
Proof.
  unfold ensLabelHashRegex. split.
  - intros Hm.
    apply Matches_Seq_inv in Hm. destruct Hm as (w1 & w2 & -> & H1 & H2).
    apply Matches_Chr in H1. subst w1.
    apply Matches_Seq_inv in H2. destruct H2 as (w3 & w4 & -> & H3 & H4).
    apply Matches_Chr in H4. subst w4.
    apply Matches_Repeat_Class in H3. destruct H3 as [Hl Hb].
    exists w3. auto.
  - intros (body & -> & Hl & Hb).
    change ("["%char :: body ++ ["]"%char])%list
      with (["["%char] ++ body ++ ["]"%char])%list.
    constructor; [ apply Matches_Chr; reflexivity | ].
    constructor; [ | apply Matches_Chr; reflexivity ].
    apply Matches_Repeat_Class. auto.
Qed.

(** X12. [isENSLabelHash] accepts exactly the strings that hold, anywhere,
    64 hex digits of either case between square brackets. *)
Theorem isENSLabelHash_spec (stringToTest : string) :
  isENSLabelHash stringToTest = true <->
  exists pre body post,
    stringToTest = pre ++ "[" ++ body ++ "]" ++ post
    /\ String.length body = 64
    /\ forallb mixed_hex (list_ascii_of_string body) = true.
Proof.
  unfold isENSLabelHash. rewrite search_spec. split.
  - intros (pre & mid & post & -> & Hm).
    apply Matches_ensLabelHashRegex in Hm. destruct Hm as (body & Hmid & Hl & Hb).
    exists pre, (string_of_list_ascii body), post.
    rewrite <- length_list_ascii, list_ascii_of_string_of_list_ascii.
    repeat split; try assumption.
    rewrite <- (string_of_list_ascii_of_string mid), Hmid.
    simpl. rewrite string_of_list_ascii_app. simpl.
    rewrite !append_assoc. reflexivity.
  - intros (pre & body & post & -> & Hl & Hb).
    exists pre, ("[" ++ body ++ "]"), post. split.
    + simpl. rewrite !append_assoc. reflexivity.
    + apply Matches_ensLabelHashRegex. exists (list_ascii_of_string body).
      rewrite length_list_ascii. repeat split; try assumption.
      simpl. rewrite list_ascii_app. reflexivity.
Qed.

End SearchFacts.

(** The donation address of the Monero project, inside a sentence. *)
Lemma isValidXMRAddress_unanchored_witness :
  95 <= String.length ModelMore.xmr_address
  /\ forall pre post,
       isValidXMRAddress (pre ++ ModelMore.xmr_address ++ post) = true.
Proof.
  apply isValidXMRAddress_unanchored. vm_compute. reflexivity.
Defined.

(** ** More on the fee classification *)

Section TxFeeMore.
Context `{num : JSNumber} `{units : Units}.

Ltac unfold_fee :=
  unfold validateTxFee, createTxFeeResponse, or_else, exceeds,
    isGreaterThanEthFraction, txTransactionFeeInEthFiatValue, txFeeFiatValue,
    txAmount, txFee, bigNumberify_value, getEthAssetRate, truthy, bind;
  cbv beta zeta.

Ltac split_matches :=
  repeat match goal with
         | |- context [ match ?x with _ => _ end ] => destruct x eqn:?
         end.

(** X13. The classification is [Invalid] exactly when the amount, the gas
    limit or the gas price is not a well-formed decimal number. *)
Theorem validateTxFee_invalid_iff
  (amount : string) (assetRateUSD assetRateFiat : number) (isERC20 : bool)
  (gasLimit gasPrice : string) (ethAssetRate : option number) :
  classification
    (validateTxFee amount assetRateUSD assetRateFiat isERC20
                   gasLimit gasPrice ethAssetRate) = Some Invalid
  <-> (~ well_formed_decimal amount
       \/ ~ well_formed_decimal gasLimit
       \/ ~ well_formed_decimal gasPrice).
Proof.
  rewrite <- !no_match_true, <- !orb_true_iff, orb_assoc.
  unfold_fee.
  destruct (no_match amount || no_match gasLimit || no_match gasPrice).
  - simpl. tauto.
  - split; [ | discriminate ].
    split_matches; simpl; discriminate.
Qed.

(** X15. An ETH rate that is zero, not a number or not positive counts as
    no ETH rate: the call does what the call without it does. *)
Theorem validateTxFee_without_eth_rate
  (amount : string) (assetRateUSD assetRateFiat : number) (isERC20 : bool)
  (gasLimit gasPrice : string) (r : number) :
  number_truthy r = false \/ number_gt_zero r = false ->
  validateTxFee amount assetRateUSD assetRateFiat isERC20 gasLimit gasPrice (Some r)
  = validateTxFee amount assetRateUSD assetRateFiat isERC20 gasLimit gasPrice None.
Proof.
  intros Hr. unfold_fee.
  destruct Hr as [Hr | Hr]; rewrite Hr; rewrite ?andb_false_r; reflexivity.
Qed.

(** X16. A classification that reports the fee as too high does not
    depend on the amount, the local fiat rate or the ERC-20 flag: when a
    second call with the same USD rate, gas strings and ETH rate returns,
    on a well-formed amount that is not below 0.000001, it returns the
    same classification. *)
Theorem fee_error_independent_of_amount
  (amount1 amount2 : string) (assetRateUSD fiat1 fiat2 : number) (erc1 erc2 : bool)
  (gasLimit gasPrice : string) (ethAssetRate : option number)
  (r1 r2 : TxFeeResponse) (a minimum : Z) :
  validateTxFee amount1 assetRateUSD fiat1 erc1 gasLimit gasPrice ethAssetRate
  = Return r1 ->
  is_fee_error (type r1) = true ->
  validateTxFee amount2 assetRateUSD fiat2 erc2 gasLimit gasPrice ethAssetRate
  = Return r2 ->
  well_formed_decimal amount2 ->
  txAmount amount2 = Return a ->
  base_units "0.000001" minimum ->
  (minimum <= a)%Z ->
  type r2 = type r1.
Proof.
  unfold base_units, txAmount. intros H1 He H2 Hw Ha Hm Hle.
  apply no_match_false in Hw. apply Z.ltb_ge in Hle.
  revert H1 He H2. unfold_fee. rewrite Hw, Ha, Hm, Hle.
  destruct (no_match amount1), (no_match gasLimit), (no_match gasPrice);
    simpl orb; cbv beta iota;
    split_matches; intros H1 He H2;
    try discriminate H1; try discriminate H2;
    injection H1 as <-; injection H2 as <-;
    simpl in He |- *; try discriminate He; reflexivity.
Qed.


Context `{fixed : !NumberFixed}.

(** X18. [isTransactionFeeHigh] answers false when the amount, the gas
    limit or the gas price is not a well-formed decimal number. *)
Theorem isTransactionFeeHigh_malformed
  (amount : string) (assetRate : number) (isERC20 : bool) (gasLimit gasPrice : string) :
  ~ well_formed_decimal amount
  \/ ~ well_formed_decimal gasLimit
  \/ ~ well_formed_decimal gasPrice ->
  isTransactionFeeHigh amount assetRate isERC20 gasLimit gasPrice = Return false.
Proof.
  intros Hbad. unfold isTransactionFeeHigh.
  replace (no_match amount || no_match gasLimit || no_match gasPrice) with true;
    [ reflexivity | ].
  symmetry. rewrite !orb_true_iff, !no_match_true. tauto.
Qed.

(** X19. For an ERC-20 transfer [isTransactionFeeHigh] answers true only
    when the fiat value of the fee, at the rate rounded to an integer,
    exceeds 10: the fee is never compared with the amount. *)
Theorem isTransactionFeeHigh_erc20
  (amount : string) (assetRate : number) (gasLimit gasPrice : string) :
  isTransactionFeeHigh amount assetRate true gasLimit gasPrice = Return true ->
  exists rate f bound,
    bigNumberify (Number_toFixed assetRate 0) = Return rate
    /\ txFee gasLimit gasPrice = Return f
    /\ bigNumberify (convertedToBaseUnit "10" DEFAULT_ASSET_DECIMAL) = Return bound
    /\ (rate * f > bound)%Z.
Proof.
  unfold isTransactionFeeHigh, or_else, bind. cbn [negb andb]. cbv beta iota.
  destruct (no_match amount || no_match gasLimit || no_match gasPrice);
    [ discriminate | ].
  destruct (bigNumberify (convertedToBaseUnit amount DEFAULT_ASSET_DECIMAL));
    try discriminate.
  destruct (bigNumberify (convertedToBaseUnit "0.000001" DEFAULT_ASSET_DECIMAL));
    try discriminate.
  destruct (_ <? _)%Z; [ discriminate | ].
  destruct (txFee gasLimit gasPrice) as [ f | | ]; try discriminate.
  destruct (bigNumberify (Number_toFixed assetRate 0)) as [ rate | | ];
    try discriminate.
  destruct (bigNumberify (convertedToBaseUnit "10" DEFAULT_ASSET_DECIMAL))
    as [ bound | | ]; try discriminate.
  intros Hhigh. injection Hhigh as Hhigh.
  rewrite Z.gtb_ltb in Hhigh. apply Z.ltb_lt in Hhigh.
  exists rate, f, bound. repeat split. lia.
Qed.

End TxFeeMore.

(** ** More on the response validators *)

Section RpcMore.
Context `{num : JSNumber} `{uni : Unicode}.

Lemma property_ok_lookup
  (fields : list (string * json)) (k : string) (ok : json -> bool) :
  match lookup k fields with Some v => ok v | None => true end = true
  <-> property_ok fields k ok.
Proof.
  unfold property_ok. destruct (lookup k fields) as [ v | ].
  - split; [ intros Hv v' Heq; injection Heq as <-; exact Hv | auto ].
  - split; [ discriminate | reflexivity ].
Qed.

Lemma validate_object_spec (fields : list (string * json)) :
  validate (JObj fields) RpcNode = true <->
  property_ok fields "jsonrpc" is_string
  /\ property_ok fields "id" (fun v => is_string v || is_integer v)
  /\ property_ok fields "result" (fun v => is_string v || is_array v || is_object v)
  /\ property_ok fields "status" is_string
  /\ property_ok fields "message" is_short_string.
Proof.
  assert (Hj : forall v, validate_property (OfType TString None) v = is_string v)
    by (intros [ | | | | | ]; reflexivity).
  assert (Hi : forall v, validate_property (OneOf [TString; TInteger]) v
                         = (is_string v || is_integer v))
    by (intros [ | | n' | | | ]; simpl; try reflexivity;
        destruct (number_isInteger n'); reflexivity).
  assert (Hr : forall v, validate_property (OneOf [TString; TArray; TObject]) v
                         = (is_string v || is_array v || is_object v))
    by (intros [ | | | | | ]; reflexivity).
  assert (Hm : forall v, validate_property (OfType TString (Some 2)) v = is_short_string v)
    by (intros [ | | | | | ]; reflexivity).
  rewrite <- !property_ok_lookup.
  unfold validate, RpcNode. cbn [properties forallb fst snd]. rewrite !andb_true_iff.
  destruct (lookup "jsonrpc" fields); destruct (lookup "id" fields);
    destruct (lookup "result" fields); destruct (lookup "status" fields);
    destruct (lookup "message" fields);
    rewrite ?Hj, ?Hi, ?Hr, ?Hm; intuition reflexivity.
Qed.

(** X21. A response that passes the schema is returned as it is by every
    validator, those without a fallback and [isValidTokenBalance]. *)
Theorem valid_response_returned (response : json) :
  isValidResult response RpcNode = true ->
  (forall v, In v validators_without_fallback -> v response = Return response)
  /\ isValidTokenBalance response = Return response.
Proof.
  intros Hok. split.
  - intros v Hin. destruct (validators_without_fallback_shape v Hin) as (apiName & Hv).
    rewrite Hv. unfold isValidEthServiceResponse. rewrite Hok. reflexivity.
  - unfold isValidTokenBalance, isValidEthServiceResponse. rewrite Hok. reflexivity.
Qed.

(** X22. The [error] property plays no part in the schema: an error
    response of the usual form, [{ jsonrpc, id, error }] with a string or
    integer [id], passes, and every validator without a fallback returns
    it instead of raising its error. *)
Theorem error_response_is_returned (version : string) (id error : json) :
  is_string id || is_integer id = true ->
  forall v, In v validators_without_fallback ->
    v (JObj [("jsonrpc", JStr version); ("id", id); ("error", error)])
    = Return (JObj [("jsonrpc", JStr version); ("id", id); ("error", error)]).
Proof.
  intros Hid v Hin.
  destruct (validators_without_fallback_shape v Hin) as (apiName & Hv).
  rewrite Hv. unfold isValidEthServiceResponse, isValidResult.
  replace (validate (JObj [("jsonrpc", JStr version); ("id", id); ("error", error)])
                    RpcNode) with true; [ reflexivity | ].
  symmetry. apply validate_object_spec.
  unfold property_ok. simpl.
  repeat split; intros v' Hv'; try discriminate Hv'; injection Hv' as <-;
    [ reflexivity | exact Hid ].
Qed.

(** X23. A response other than [null] that fails the schema and has no
    [error], or a falsy one, makes the validation raise the error
    "Invalid <API name> Error". *)
Theorem failing_response_without_error (response : json) (apiName : API_NAME) :
  isValidResult response RpcNode = false ->
  response <> JNull ->
  (get response "error" = None
   \/ exists error, get response "error" = Some error /\ json_truthy error = false) ->
  isValidEthServiceResponse response RpcNode apiName None
  = ThrowError ("Invalid " ++ API_NAME_value apiName ++ " Error").
Proof.
  intros Hbad Hnull Herr.
  unfold isValidEthServiceResponse. rewrite Hbad. simpl negb. cbv iota.
  unfold formatErrors.
  destruct response; try congruence;
    destruct Herr as [He | (error & He & Hf)]; rewrite He; try rewrite Hf; reflexivity.
Qed.

(** X24. A failing response whose [error] is truthy but has no string
    [message] makes every validator without a fallback raise a [TypeError]
    of the runtime, not a formatted error. *)
Theorem error_without_message_raises_TypeError
  (response error : json) (v : json -> outcome json) :
  isValidResult response RpcNode = false ->
  get response "error" = Some error ->
  json_truthy error = true ->
  (forall message, get error "message" <> Some (JStr message)) ->
  In v validators_without_fallback ->
  v response = ThrowTypeError.
Proof.
  intros Hbad He Ht Hm Hin.
  destruct (validators_without_fallback_shape v Hin) as (apiName & Hv).
  rewrite Hv. unfold isValidEthServiceResponse. rewrite Hbad. simpl negb. cbv iota.
  unfold formatErrors.
  destruct response; try discriminate He. rewrite He, Ht.
  destruct (get error "message") as [ [ | | | m | | ] | ]; try reflexivity.
  exfalso. exact (Hm m eq_refl).
Qed.

End RpcMore.

(** ** The further properties on the concrete runtime *)

Section MoreExamples.
Local Existing Instance Model.decimalNumber.
Local Existing Instance Model.decimalUnits.
Local Existing Instance ModelMore.decimalFixed.
Local Existing Instance Model.utf8.

(** The ETH rate 0. *)
Lemma validateTxFee_without_eth_rate_witness :
  validateTxFee "1" (Model.int 1000) (Model.int 900) false "21000" "10000"
    (Some (Model.int 0))
  = validateTxFee "1" (Model.int 1000) (Model.int 900) false "21000" "10000" None.
Proof.
  apply (validateTxFee_without_eth_rate (num := Model.decimalNumber)
           (units := Model.decimalUnits) "1" (Model.int 1000) (Model.int 900) false
           "21000" "10000" (Model.int 0)).
  left. vm_compute. reflexivity.
Defined.

(** The amounts 1 and 2.5 under a fee worth 210. *)
Lemma fee_error_independent_of_amount_witness :
  type {| type := Error_Very_High_Tx_Fee;
          amount := Some "2500.0000"; fee := Some "210.0000" |}
  = type {| type := Error_Very_High_Tx_Fee;
            amount := Some "900.0000"; fee := Some "189.0000" |}.
Proof.
  apply (fee_error_independent_of_amount (num := Model.decimalNumber)
           (units := Model.decimalUnits) "1" "2.5" (Model.int 1000)
           (Model.int 900) (Model.int 1000) false true "21000" "10000" None
           {| type := Error_Very_High_Tx_Fee;
              amount := Some "900.0000"; fee := Some "189.0000" |}
           {| type := Error_Very_High_Tx_Fee;
              amount := Some "2500.0000"; fee := Some "210.0000" |}
           (25 * 10 ^ 21) (10 ^ 16)).
  - vm_compute. reflexivity.
  - reflexivity.
  - vm_compute. reflexivity.
  - apply well_formed_decimal_by_test. vm_compute. reflexivity.
  - vm_compute. reflexivity.
  - unfold base_units. vm_compute. reflexivity.
  - vm_compute. intros Hle. discriminate Hle.
Defined.


(** The gas limit "21000.". *)
Lemma isTransactionFeeHigh_malformed_witness :
  isTransactionFeeHigh "1" (Model.int 1000) false "21000." "10" = Return false.
Proof.
  apply (isTransactionFeeHigh_malformed (num := Model.decimalNumber)
           (units := Model.decimalUnits) (fixed := ModelMore.decimalFixed)
           "1" (Model.int 1000) false "21000." "10").
  right. left. apply not_well_formed_decimal_by_test. vm_compute. reflexivity.
Defined.

(** An ERC-20 transfer under a fee worth 21. *)
Lemma isTransactionFeeHigh_erc20_witness :
  exists rate f bound,
    bigNumberify (Number_toFixed (Model.int 1000) 0) = Return rate
    /\ txFee "21000" "1000" = Return f
    /\ bigNumberify (convertedToBaseUnit "10" DEFAULT_ASSET_DECIMAL) = Return bound
    /\ (rate * f > bound)%Z.
Proof.
  apply (isTransactionFeeHigh_erc20 (num := Model.decimalNumber)
           (units := Model.decimalUnits) (fixed := ModelMore.decimalFixed)
           "1" (Model.int 1000) "21000" "1000").
  vm_compute. reflexivity.
Defined.

(** A balance response. *)
Lemma valid_response_returned_witness :
  (forall v, In v validators_without_fallback ->
             v ModelMore.balance_response = Return ModelMore.balance_response)
  /\ isValidTokenBalance ModelMore.balance_response
     = Return ModelMore.balance_response.
Proof.
  apply (valid_response_returned (num := Model.decimalNumber) (uni := Model.utf8)
           ModelMore.balance_response).
  vm_compute. reflexivity.
Defined.

(** The error of the rejected signature in a response of the usual form. *)
Lemma error_response_is_returned_witness :
  isValidGetBalance
    (JObj [ ("jsonrpc", JStr "2.0"); ("id", JNum (num := Model.decimalNumber) (Model.int 1));
            ("error", Model.rejected_error) ])
  = Return
      (JObj [ ("jsonrpc", JStr "2.0"); ("id", JNum (num := Model.decimalNumber) (Model.int 1));
              ("error", Model.rejected_error) ]).
Proof.
  apply (fun Hid =>
           error_response_is_returned (num := Model.decimalNumber)
             (uni := Model.utf8) "2.0"
             (JNum (num := Model.decimalNumber) (Model.int 1))
             Model.rejected_error Hid isValidGetBalance).
  - reflexivity.
  - left. reflexivity.
Defined.

(** A response whose result is the number 5. *)
Lemma failing_response_without_error_witness :
  isValidEthServiceResponse ModelMore.number_result_response RpcNode Get_Balance None
  = ThrowError "Invalid Get Balance Error".
Proof.
  apply (failing_response_without_error (num := Model.decimalNumber)
           (uni := Model.utf8) ModelMore.number_result_response Get_Balance).
  - vm_compute. reflexivity.
  - discriminate.
  - left. reflexivity.
Defined.

(** A response whose error is the string "boom". *)
Lemma error_without_message_raises_TypeError_witness :
  isValidGetBalance ModelMore.string_error_response = ThrowTypeError.
Proof.
  apply (error_without_message_raises_TypeError (num := Model.decimalNumber)
           (uni := Model.utf8) ModelMore.string_error_response (JStr "boom") isValidGetBalance).
  - vm_compute. reflexivity.
  - reflexivity.
  - reflexivity.
  - intros message Hm. discriminate Hm.
  - left. reflexivity.
Defined.

End MoreExamples.
